(** * Promethium experiment logger (tools/experiment_logger.py)

    A shallow embedding of [ExperimentLogger] and of the [ExperimentRun]
    context manager.  The logger keeps one in-memory run (a Python dict,
    modelled as the record [run] whose JSON form is produced field by field
    in the source's key order), and appends finished runs as JSON lines to
    the experiment's log file.  Python's [json] and [datetime] libraries are
    parameters of the development (type classes [JsonLib] and [ClockLib]);
    theorems assume only what the library guarantees on the values at hand. *)

From Stdlib Require Import String Ascii List ZArith QArith Bool Lia.
Import ListNotations.
Open Scope string_scope.
Open Scope list_scope.
Set Warnings "-register-all".

(** ** JSON values and Python dicts *)

(** Values as [json.loads] returns them: numbers ([int] and [float]) as
    rationals, dicts as insertion-ordered association lists. *)
Inductive json : Type :=
| JNull
| JBool (b : bool)
| JNum (q : Q)
| JStr (s : string)
| JArr (l : list json)
| JObj (kvs : list (string * json)).

Definition dict := list (string * json).

(** [d.get(k)] / [d[k]]: the entry of key [k]. *)
Fixpoint dict_get (k : string) (d : dict) : option json :=
  match d with
  | [] => None
  | (k', v) :: d' => if String.eqb k k' then Some v else dict_get k d'
  end.

(** [d[k] = v]: an existing key keeps its position, a new key goes last. *)
Fixpoint dict_set (k : string) (v : json) (d : dict) : dict :=
  match d with
  | [] => [(k, v)]
  | (k', v') :: d' =>
      if String.eqb k k' then (k', v) :: d' else (k', v') :: dict_set k v d'
  end.

(** [d.update(new)]. *)
Definition dict_update (d new : dict) : dict :=
  fold_left (fun acc kv => dict_set (fst kv) (snd kv) acc) new d.

Definition dict_keys (d : dict) : list string := map fst d.

(** ** Exceptions and results *)

Record exn := mk_exn { exn_type : string; exn_msg : string }.

(** [str(e)] of an exception raised with one message argument. *)
Definition py_str (e : exn) : string := exn_msg e.

Inductive result (A : Type) : Type :=
| Ok (a : A)
| Err (e : exn).
Arguments Ok {A} a.
Arguments Err {A} e.

Definition rbind {A B : Type} (m : result A) (f : A -> result B) : result B :=
  match m with Ok a => f a | Err e => Err e end.
Notation "x <- m ;; k" := (rbind m (fun x => k))
  (at level 61, m at next level, right associativity).

Definition py_type_name (v : json) : string :=
  match v with
  | JNull => "NoneType"
  | JBool _ => "bool"
  | JNum _ => "float"
  | JStr _ => "str"
  | JArr _ => "list"
  | JObj _ => "dict"
  end.

(** ** The libraries the logger calls *)

(** [json.dumps] and [json.loads] ([None] for a [JSONDecodeError]). *)
Class JsonLib := {
  dumps : json -> string;
  loads : string -> option json
}.

(** [datetime.now().isoformat()] and [datetime.fromisoformat], with a
    naive datetime represented by its count of microseconds ([None] for a
    [ValueError]). *)
Class ClockLib := {
  isoformat : Z -> string;
  fromisoformat : string -> option Z
}.

(** ** The run record *)

(** The dict [self._current_run]; [run_duration_seconds] is [None] until
    [end_run] adds the key. *)
Record run := mk_run {
  run_run_id : string;
  run_experiment_id : string;
  run_pipeline : option string;
  run_dataset : option string;
  run_config_path : option string;
  run_tags : dict;
  run_parameters : dict;
  run_metrics : dict;
  run_artifacts : list json;
  run_start_time : string;
  run_end_time : option string;
  run_status : string;
  run_error : option string;
  run_duration_seconds : option Q
}.

Definition opt_str (o : option string) : json :=
  match o with Some s => JStr s | None => JNull end.

(** The dict as [json.dumps] sees it, keys in insertion order. *)
Definition run_to_json (r : run) : json :=
  JObj ([("run_id", JStr (run_run_id r));
         ("experiment_id", JStr (run_experiment_id r));
         ("pipeline", opt_str (run_pipeline r));
         ("dataset", opt_str (run_dataset r));
         ("config_path", opt_str (run_config_path r));
         ("tags", JObj (run_tags r));
         ("parameters", JObj (run_parameters r));
         ("metrics", JObj (run_metrics r));
         ("artifacts", JArr (run_artifacts r));
         ("start_time", JStr (run_start_time r));
         ("end_time", opt_str (run_end_time r));
         ("status", JStr (run_status r));
         ("error", opt_str (run_error r))]
        ++ match run_duration_seconds r with
           | Some d => [("duration_seconds", JNum d)]
           | None => []
           end).

Definition with_parameters (r : run) (p : dict) : run :=
  {| run_run_id := run_run_id r; run_experiment_id := run_experiment_id r;
     run_pipeline := run_pipeline r; run_dataset := run_dataset r;
     run_config_path := run_config_path r; run_tags := run_tags r;
     run_parameters := p; run_metrics := run_metrics r;
     run_artifacts := run_artifacts r; run_start_time := run_start_time r;
     run_end_time := run_end_time r; run_status := run_status r;
     run_error := run_error r;
     run_duration_seconds := run_duration_seconds r |}.

Definition with_metrics (r : run) (m : dict) : run :=
  {| run_run_id := run_run_id r; run_experiment_id := run_experiment_id r;
     run_pipeline := run_pipeline r; run_dataset := run_dataset r;
     run_config_path := run_config_path r; run_tags := run_tags r;
     run_parameters := run_parameters r; run_metrics := m;
     run_artifacts := run_artifacts r; run_start_time := run_start_time r;
     run_end_time := run_end_time r; run_status := run_status r;
     run_error := run_error r;
     run_duration_seconds := run_duration_seconds r |}.

Definition with_artifacts (r : run) (a : list json) : run :=
  {| run_run_id := run_run_id r; run_experiment_id := run_experiment_id r;
     run_pipeline := run_pipeline r; run_dataset := run_dataset r;
     run_config_path := run_config_path r; run_tags := run_tags r;
     run_parameters := run_parameters r; run_metrics := run_metrics r;
     run_artifacts := a; run_start_time := run_start_time r;
     run_end_time := run_end_time r; run_status := run_status r;
     run_error := run_error r;
     run_duration_seconds := run_duration_seconds r |}.

(** The three assignments at the top of [end_run]. *)
Definition with_end (r : run) (end_time : string) (status : string)
    (error : option string) : run :=
  {| run_run_id := run_run_id r; run_experiment_id := run_experiment_id r;
     run_pipeline := run_pipeline r; run_dataset := run_dataset r;
     run_config_path := run_config_path r; run_tags := run_tags r;
     run_parameters := run_parameters r; run_metrics := run_metrics r;
     run_artifacts := run_artifacts r; run_start_time := run_start_time r;
     run_end_time := Some end_time; run_status := status;
     run_error := error;
     run_duration_seconds := run_duration_seconds r |}.

Definition with_duration (r : run) (d : Q) : run :=
  {| run_run_id := run_run_id r; run_experiment_id := run_experiment_id r;
     run_pipeline := run_pipeline r; run_dataset := run_dataset r;
     run_config_path := run_config_path r; run_tags := run_tags r;
     run_parameters := run_parameters r; run_metrics := run_metrics r;
     run_artifacts := run_artifacts r; run_start_time := run_start_time r;
     run_end_time := run_end_time r; run_status := run_status r;
     run_error := run_error r;
     run_duration_seconds := Some d |}.

(** ** The logger state *)

(** [experiment_id], [_current_run], [_run_id], and the contents of
    [<logs_dir>/<experiment_id>.jsonl] ([None] while the file does not
    exist). *)
Record logger := mk_logger {
  experiment_id : string;
  current_run : option run;
  cur_run_id : option string;
  log_file : option string
}.

Definition set_current (lg : logger) (r : run) : logger :=
  mk_logger (experiment_id lg) (Some r) (cur_run_id lg) (log_file lg).

Definition file_text (f : option string) : string :=
  match f with Some c => c | None => EmptyString end.

Definition LF : ascii := Ascii.ascii_of_nat 10.
Definition CR : ascii := Ascii.ascii_of_nat 13.
Definition newline : string := String LF EmptyString.

Definition no_active_run : exn :=
  mk_exn "RuntimeError" "No active run. Call start_run() first.".
Definition no_active_run_to_end : exn :=
  mk_exn "RuntimeError" "No active run to end.".
Definition iso_value_error : exn :=
  mk_exn "ValueError" "Invalid isoformat string".
Definition no_append (v : json) : exn :=
  mk_exn "AttributeError"
    ("'" ++ py_type_name v ++ "' object has no attribute 'append'")%string.

(** One call [logger.log_metrics(metrics, step=step)], made when the clock
    reads [now]. *)
Record metrics_call := mk_call { mc_metrics : dict; mc_step : option Z; mc_now : Z }.

Section Tracker.
Context `{JsonLib} `{ClockLib}.

(** [start_run]: [uid] is [str(uuid.uuid4())[:8]] and [now] the reading of
    [datetime.now()].  There is no check of [self._current_run]. *)
Definition start_run (pipeline dataset config_path : option string)
    (tags : option dict) (uid : string) (now : Z) (lg : logger)
    : result string * logger :=
  let r := {| run_run_id := uid; run_experiment_id := experiment_id lg;
              run_pipeline := pipeline; run_dataset := dataset;
              run_config_path := config_path;
              run_tags := match tags with Some t => t | None => [] end;
              run_parameters := []; run_metrics := []; run_artifacts := [];
              run_start_time := isoformat now; run_end_time := None;
              run_status := "running"; run_error := None;
              run_duration_seconds := None |} in
  (Ok uid, mk_logger (experiment_id lg) (Some r) (Some uid) (log_file lg)).

Definition log_params (params : dict) (lg : logger) : result unit * logger :=
  match current_run lg with
  | None => (Err no_active_run, lg)
  | Some r => (Ok tt, set_current lg (with_parameters r (dict_update (run_parameters r) params)))
  end.

(** One entry of a time series; [now] is the clock reading of the call. *)
Definition series_entry (step : Z) (value : json) (now : Z) : json :=
  JObj [("step", JNum (inject_Z step)); ("value", value);
        ("timestamp", JStr (isoformat now))].

(** The [for key, value in metrics.items()] loop of the [step] branch:
    keys already appended stay appended when a later key raises. *)
Fixpoint append_series (step : Z) (now : Z) (items : dict) (m : dict)
    : result unit * dict :=
  match items with
  | [] => (Ok tt, m)
  | (k, v) :: rest =>
      match dict_get k m with
      | None => append_series step now rest (dict_set k (JArr [series_entry step v now]) m)
      | Some (JArr es) =>
          append_series step now rest (dict_set k (JArr (es ++ [series_entry step v now])) m)
      | Some other => (Err (no_append other), m)
      end
  end.

Definition log_metrics (metrics : dict) (step : option Z) (now : Z) (lg : logger)
    : result unit * logger :=
  match current_run lg with
  | None => (Err no_active_run, lg)
  | Some r =>
      match step with
      | Some s =>
          let (res, m') := append_series s now metrics (run_metrics r) in
          (res, set_current lg (with_metrics r m'))
      | None => (Ok tt, set_current lg (with_metrics r (dict_update (run_metrics r) metrics)))
      end
  end.

Definition log_artifact (path artifact_type : string) (now : Z) (lg : logger)
    : result unit * logger :=
  match current_run lg with
  | None => (Err no_active_run, lg)
  | Some r =>
      (Ok tt, set_current lg (with_artifacts r (run_artifacts r ++
         [JObj [("path", JStr path); ("type", JStr artifact_type);
                ("logged_at", JStr (isoformat now))]])))
  end.

(** [(end - start).total_seconds()] for datetimes given in microseconds. *)
Definition total_seconds (t0 t1 : Z) : Q := inject_Z (t1 - t0) / inject_Z 1000000.

(** [end_run]: the end time, status and error are stored before the two
    [fromisoformat] calls; the line [json.dumps(run) + "\n"] is appended to
    the file (created when missing) and the active run is cleared. *)
Definition end_run (status : string) (error : option string) (now : Z) (lg : logger)
    : result unit * logger :=
  match current_run lg with
  | None => (Err no_active_run_to_end, lg)
  | Some r =>
      let r1 := with_end r (isoformat now) status error in
      match fromisoformat (run_start_time r1) with
      | None => (Err iso_value_error, set_current lg r1)
      | Some t0 =>
          match fromisoformat (isoformat now) with
          | None => (Err iso_value_error, set_current lg r1)
          | Some t1 =>
              let r2 := with_duration r1 (total_seconds t0 t1) in
              (Ok tt, mk_logger (experiment_id lg) None None
                        (Some (file_text (log_file lg) ++ dumps (run_to_json r2) ++ newline)%string))
          end
      end
  end.

(** ** Reading the log back *)

(** Universal newlines of [open(path, "r")]: ["\r\n"] and ["\r"] read as
    ["\n"]. *)
Fixpoint translate_newlines (s : string) : string :=
  match s with
  | EmptyString => EmptyString
  | String c s' =>
      if Ascii.eqb c CR then
        match s' with
        | String c2 s'' =>
            if Ascii.eqb c2 LF then String LF (translate_newlines s'')
            else String LF (translate_newlines s')
        | EmptyString => String LF EmptyString
        end
      else String c (translate_newlines s')
  end.

(** [for line in f]: the lines of the text, each keeping its ["\n"]; a
    last line without one is kept as it is. *)
Fixpoint py_lines (s : string) : list string :=
  match s with
  | EmptyString => []
  | String c s' =>
      if Ascii.eqb c LF then String LF EmptyString :: py_lines s'
      else match py_lines s' with
           | [] => [String c EmptyString]
           | l :: ls => String c l :: ls
           end
  end.

(** [str.isspace] on one ASCII character. *)
Definition py_isspace (c : ascii) : bool :=
  let n := nat_of_ascii c in
  ((9 <=? n) && (n <=? 13) || (28 <=? n) && (n <=? 32))%nat.

(** [not line.strip()]. *)
Definition is_blank (line : string) : bool :=
  forallb py_isspace (list_ascii_of_string line).

Definition json_decode_error : exn :=
  mk_exn "JSONDecodeError" "Expecting value".

(** The loop of [get_runs]: blank lines are skipped, every other line goes
    through [json.loads], whose error propagates. *)
Fixpoint parse_lines (ls : list string) : result (list json) :=
  match ls with
  | [] => Ok []
  | l :: ls' =>
      if is_blank l then parse_lines ls'
      else match loads l with
           | None => Err json_decode_error
           | Some v =>
               match parse_lines ls' with
               | Ok vs => Ok (v :: vs)
               | Err e => Err e
               end
           end
  end.

Definition read_runs (f : option string) : result (list json) :=
  match f with
  | None => Ok []
  | Some c => parse_lines (py_lines (translate_newlines c))
  end.

Definition get_runs (lg : logger) : result (list json) := read_runs (log_file lg).

(** ** get_best_run *)

(** Extended reals: the keys [float('-inf')], finite numbers, [float('inf')]. *)
Inductive ext : Type :=
| NegInf
| Fin (q : Q)
| PosInf.

(** A key passed to [max]/[min]: a number ([bool] counts as 0 or 1), a
    string, or another value.  Two numbers and two strings compare as in
    Python; any other pair is a [TypeError] (Python would also order two
    lists element-wise, which no claim here uses). *)
Inductive pykey : Type :=
| KNum (e : ext)
| KStr (s : string)
| KOther (v : json).

Definition key_of_json (v : json) : pykey :=
  match v with
  | JNum q => KNum (Fin q)
  | JBool b => KNum (Fin (if b then 1 else 0))
  | JStr s => KStr s
  | _ => KOther v
  end.

(** Python's [<] on two finite numbers. *)
Definition Qltb (x y : Q) : bool := negb (Qle_bool y x).

Definition ext_lt (a b : ext) : bool :=
  match a, b with
  | NegInf, NegInf => false
  | NegInf, _ => true
  | Fin _, NegInf => false
  | Fin x, Fin y => Qltb x y
  | Fin _, PosInf => true
  | PosInf, _ => false
  end.

Fixpoint string_lt (a b : string) : bool :=
  match a, b with
  | EmptyString, EmptyString => false
  | EmptyString, String _ _ => true
  | String _ _, EmptyString => false
  | String x a', String y b' =>
      if (nat_of_ascii x <? nat_of_ascii y)%nat then true
      else if Ascii.eqb x y then string_lt a' b' else false
  end.

Definition unorderable : exn :=
  mk_exn "TypeError" "comparison not supported between these instances".

Definition py_lt (a b : pykey) : result bool :=
  match a, b with
  | KNum x, KNum y => Ok (ext_lt x y)
  | KStr x, KStr y => Ok (string_lt x y)
  | _, _ => Err unorderable
  end.

(** [a > b], which for numbers and strings is [b < a]. *)
Definition py_gt (a b : pykey) : result bool := py_lt b a.

Definition attr_error (v : json) (attr : string) : exn :=
  mk_exn "AttributeError"
    ("'" ++ py_type_name v ++ "' object has no attribute '" ++ attr ++ "'")%string.

Definition not_subscriptable (v : json) : exn :=
  mk_exn "TypeError" ("'" ++ py_type_name v ++ "' value cannot be indexed by 'value'")%string.

(** [float('-inf' if maximize else 'inf')]. *)
Definition inf_sentinel (maximize : bool) : pykey :=
  KNum (if maximize then NegInf else PosInf).

(** The nested [get_metric_value] of [get_best_run]. *)
Definition get_metric_value (metric : string) (maximize : bool) (r : json)
    : result pykey :=
  match r with
  | JObj d =>
      match (match dict_get "metrics" d with Some m => m | None => JObj [] end) with
      | JObj md =>
          match dict_get metric md with
          | Some (JArr es) =>
              match rev es with
              | [] => Ok (inf_sentinel maximize)
              | JObj e :: _ =>
                  match dict_get "value" e with
                  | Some v => Ok (key_of_json v)
                  | None => Err (mk_exn "KeyError" "'value'")
                  end
              | other :: _ => Err (not_subscriptable other)
              end
          | Some JNull | None => Ok (inf_sentinel maximize)
          | Some v => Ok (key_of_json v)
          end
      | other => Err (attr_error other "get")
      end
  | other => Err (attr_error other "get")
  end.

(** The loop of the built-in [max(items, key=f)] (with [better] the test
    [>]) and [min] (with [<]): an item replaces the current best only when
    its key is strictly better. *)
Fixpoint extremum_loop (better : pykey -> pykey -> result bool)
    (key : json -> result pykey) (best : json) (bestk : pykey) (rest : list json)
    : result json :=
  match rest with
  | [] => Ok best
  | r :: rs =>
      match key r with
      | Err e => Err e
      | Ok k =>
          match better k bestk with
          | Err e => Err e
          | Ok true => extremum_loop better key r k rs
          | Ok false => extremum_loop better key best bestk rs
          end
      end
  end.

Definition py_extremum (better : pykey -> pykey -> result bool)
    (key : json -> result pykey) (items : list json) : result json :=
  match items with
  | [] => Err (mk_exn "ValueError" "arg is an empty sequence")
  | r :: rs => k <- key r ;; extremum_loop better key r k rs
  end.

Definition best_of_runs (metric : string) (maximize : bool) (runs : list json)
    : result (option json) :=
  match runs with
  | [] => Ok None
  | _ :: _ =>
      best <- py_extremum (if maximize then py_gt else py_lt)
                (get_metric_value metric maximize) runs ;;
      Ok (Some best)
  end.

Definition get_best_run (metric : string) (maximize : bool) (lg : logger)
    : result (option json) :=
  runs <- get_runs lg ;; best_of_runs metric maximize runs.

(** ** get_summary *)

(** [r.get(k)]: [r] has to be a dict. *)
Definition py_get (r : json) (k : string) : result (option json) :=
  match r with
  | JObj d => Ok (dict_get k d)
  | other => Err (attr_error other "get")
  end.

(** [x == s] for an optional value [x] and a string [s]. *)
Definition is_str (s : string) (x : option json) : bool :=
  match x with Some (JStr s') => String.eqb s s' | _ => false end.

(** [[r for r in runs if r.get("status") == s]]. *)
Fixpoint runs_with_status (s : string) (runs : list json) : result (list json) :=
  match runs with
  | [] => Ok []
  | r :: rs =>
      st <- py_get r "status" ;;
      rs' <- runs_with_status s rs ;;
      Ok (if is_str s st then r :: rs' else rs')
  end.

(** [isinstance(value, (int, float))]; a [bool] is an [int]. *)
Definition is_py_number (v : json) : bool :=
  match v with JNum _ | JBool _ => true | _ => false end.

(** The dict [metric_values] from key to list of values. *)
Definition value_lists := list (string * list json).

(** [if key not in mv: mv[key] = []] followed by [mv[key].append(value)]. *)
Fixpoint mv_add (k : string) (v : json) (mv : value_lists) : value_lists :=
  match mv with
  | [] => [(k, [v])]
  | (k', vs) :: mv' =>
      if String.eqb k k' then (k', vs ++ [v]) :: mv' else (k', vs) :: mv_add k v mv'
  end.

(** The inner loop over [run.get("metrics", {}).items()]. *)
Fixpoint collect_metrics (items : dict) (mv : value_lists) : value_lists :=
  match items with
  | [] => mv
  | (k, v) :: rest => collect_metrics rest (if is_py_number v then mv_add k v mv else mv)
  end.

(** The outer loop over the completed runs. *)
Fixpoint aggregate (completed : list json) (mv : value_lists) : result value_lists :=
  match completed with
  | [] => Ok mv
  | r :: rs =>
      m <- py_get r "metrics" ;;
      match (match m with Some x => x | None => JObj [] end) with
      | JObj items => aggregate rs (collect_metrics items mv)
      | other => Err (attr_error other "items")
      end
  end.

Definition num_of (v : json) : Q :=
  match v with JNum q => q | JBool true => 1 | _ => 0 end.

(** [sum(values)]. *)
Definition py_sum (vs : list json) : Q :=
  fold_left (fun acc v => acc + num_of v) vs 0.

(** [min(values)] and [max(values)]: the first extremal element. *)
Fixpoint min_loop (cur : json) (vs : list json) : json :=
  match vs with
  | [] => cur
  | v :: vs' => min_loop (if Qltb (num_of v) (num_of cur) then v else cur) vs'
  end.

Fixpoint max_loop (cur : json) (vs : list json) : json :=
  match vs with
  | [] => cur
  | v :: vs' => max_loop (if Qltb (num_of cur) (num_of v) then v else cur) vs'
  end.

Definition nat_json (n : nat) : json := JNum (inject_Z (Z.of_nat n)).

Definition metric_stats_of (v0 : json) (vs : list json) : json :=
  let values := v0 :: vs in
  JObj [("mean", JNum (py_sum values / inject_Z (Z.of_nat (length values))));
        ("min", min_loop v0 vs);
        ("max", max_loop v0 vs);
        ("count", nat_json (length values))].

(** The [for key, values in metric_values.items(): if values: ...] loop. *)
Fixpoint stats_dict (mv : value_lists) : dict :=
  match mv with
  | [] => []
  | (k, []) :: mv' => stats_dict mv'
  | (k, v0 :: vs) :: mv' => (k, metric_stats_of v0 vs) :: stats_dict mv'
  end.

Definition start_time_of (r : json) : result json :=
  st <- py_get r "start_time" ;;
  Ok (match st with Some v => v | None => JNull end).

Definition summary_of_runs (eid : string) (runs : list json) : result json :=
  match runs with
  | [] =>
      Ok (JObj [("experiment_id", JStr eid); ("total_runs", nat_json 0);
                ("completed", nat_json 0); ("failed", nat_json 0)])
  | r0 :: _ =>
      completed <- runs_with_status "completed" runs ;;
      failed <- runs_with_status "failed" runs ;;
      mv <- aggregate completed [] ;;
      first <- start_time_of r0 ;;
      lst <- start_time_of (last runs r0) ;;
      Ok (JObj [("experiment_id", JStr eid);
                ("total_runs", nat_json (length runs));
                ("completed", nat_json (length completed));
                ("failed", nat_json (length failed));
                ("metric_summary", JObj (stats_dict mv));
                ("first_run", first);
                ("last_run", lst)])
  end.

Definition get_summary (lg : logger) : result json :=
  runs <- get_runs lg ;; summary_of_runs (experiment_id lg) runs.

(** ** The [ExperimentRun] context manager *)

(** [with ExperimentRun(logger, **kwargs): body].  [__enter__] calls
    [start_run]; [__exit__] ends the run as failed with [str(exc_val)] when
    the body raised and as completed otherwise, and returns [False], so the
    body's exception propagates; an exception raised by [__exit__] itself
    replaces it.  [t_start] and [t_end] are the clock readings of the two
    calls. *)
Definition experiment_run (pipeline dataset config_path : option string)
    (tags : option dict) (uid : string) (t_start t_end : Z)
    (body : logger -> result unit * logger) (lg : logger) : result unit * logger :=
  match start_run pipeline dataset config_path tags uid t_start lg with
  | (Err e, lg1) => (Err e, lg1)
  | (Ok _, lg1) =>
      match body lg1 with
      | (Ok _, lg2) => end_run "completed" None t_end lg2
      | (Err e, lg2) =>
          match end_run "failed" (Some (py_str e)) t_end lg2 with
          | (Ok _, lg3) => (Err e, lg3)
          | (Err e', lg3) => (Err e', lg3)
          end
      end
  end.

(** [log_param(key, value)] is [log_params({key: value})]. *)
Definition log_param (key : string) (value : json) (lg : logger) : result unit * logger :=
  log_params [(key, value)] lg.

(** [log_metric(key, value, step)] is [log_metrics({key: value}, step=step)]. *)
Definition log_metric (key : string) (value : json) (step : option Z) (now : Z) (lg : logger)
    : result unit * logger :=
  log_metrics [(key, value)] step now lg.

(** ** [run_pipeline_from_config] (tools/pipeline_runner.py) *)

(** The use of the logger by [run_pipeline_from_config] when an experiment id
    is given.  [start_run] and [log_params(config.get("model", {}))] run
    before the [try]; [work] is the outcome of the steps of the [try] before
    the logging (loading, building and running the pipeline, evaluating and
    saving), which do not use the logger: the metrics and the output
    directory, or the exception raised.  Any exception in the [try],
    including one of the three logging calls, ends the run as failed with
    [str(e)] and is raised again.  [t_log], [t_end] and [t_fail] are the
    clock readings of the logging calls, of [end_run(status="completed")]
    and of [end_run(status="failed")]. *)
Definition run_pipeline_logging (pipeline_name : string) (dataset : option string)
    (config_path : string) (model : dict) (uid : string) (t_start t_log t_end t_fail : Z)
    (work : result (dict * string)) (lg : logger) : result dict * logger :=
  let lg1 := snd (start_run (Some pipeline_name) dataset (Some config_path) None uid t_start lg) in
  match log_params model lg1 with
  | (Err e, lg2) => (Err e, lg2)
  | (Ok _, lg2) =>
      let attempt :=
        match work with
        | Err e => (Err e, lg2)
        | Ok (metrics, output_dir) =>
            match log_metrics metrics None t_log lg2 with
            | (Err e, lg3) => (Err e, lg3)
            | (Ok _, lg3) =>
                match log_artifact output_dir "results_directory" t_log lg3 with
                | (Err e, lg4) => (Err e, lg4)
                | (Ok _, lg4) =>
                    match end_run "completed" None t_end lg4 with
                    | (Err e, lg5) => (Err e, lg5)
                    | (Ok _, lg5) => (Ok metrics, lg5)
                    end
                end
            end
        end in
      match attempt with
      | (Ok m, lg') => (Ok m, lg')
      | (Err e, lg') =>
          match end_run "failed" (Some (py_str e)) t_fail lg' with
          | (Ok _, lg'') => (Err e, lg'')
          | (Err e', lg'') => (Err e', lg'')
          end
      end
  end.

(** The record [end_run] writes for the run [r]. *)
Definition finished_record (r : run) (status : string) (error : option string)
    (t0 t1 : Z) : run :=
  with_duration (with_end r (isoformat t1) status error) (total_seconds t0 t1).

(** A sequence of [log_metrics] calls; an exception ends the sequence. *)
Fixpoint log_metrics_seq (cs : list metrics_call) (lg : logger) : result unit * logger :=
  match cs with
  | [] => (Ok tt, lg)
  | c :: cs' =>
      match log_metrics (mc_metrics c) (mc_step c) (mc_now c) lg with
      | (Ok _, lg') => log_metrics_seq cs' lg'
      | (Err e, lg') => (Err e, lg')
      end
  end.

End Tracker.

(** ** Concrete instances of the libraries, for evaluating examples *)

Module PyJson.

(** Decimal digits of a natural number. *)
Fixpoint digits_aux (fuel : nat) (n : N) (acc : string) : string :=
  match fuel with
  | O => acc
  | S f =>
      let d := Ascii.ascii_of_N (48 + N.modulo n 10) in
      if (n <? 10)%N then String d acc else digits_aux f (N.div n 10) (String d acc)
  end.

Definition show_N (n : N) : string := digits_aux (S (N.size_nat n)) n EmptyString.

Definition show_Z (z : Z) : string :=
  match z with
  | Zneg p => String "-" (show_N (Npos p))
  | _ => show_N (Z.to_N z)
  end.

(** A rational [n / d] with [d] dividing some [10^k], [k <= 30], printed as
    [m e-k]; other rationals are not printed as JSON numbers. *)
Fixpoint show_Q_aux (fuel : nat) (k : Z) (n : Z) (d : Z) : string :=
  match fuel with
  | O => "NaN"
  | S f =>
      if Z.eqb (Z.modulo (10 ^ k) d) 0 then
        (show_Z (n * (10 ^ k / d)) ++ "e-" ++ show_Z k)%string
      else show_Q_aux f (k + 1) n d
  end.

Definition show_Q (q : Q) : string :=
  if Z.eqb (Zpos (Qden q)) 1 then show_Z (Qnum q)
  else show_Q_aux 30 1 (Qnum q) (Zpos (Qden q)).

Definition DQ : ascii := Ascii.ascii_of_nat 34.
Definition BS : ascii := Ascii.ascii_of_nat 92.

Definition hex_digit (n : N) : ascii :=
  if (n <? 10)%N then Ascii.ascii_of_N (48 + n) else Ascii.ascii_of_N (87 + n).

(** String escapes of [json.dumps] with [ensure_ascii=True]. *)
Definition escape_char (c : ascii) : string :=
  let n := Ascii.N_of_ascii c in
  if (n =? 34)%N then String BS (String DQ EmptyString)
  else if (n =? 92)%N then "\\"
  else if (n =? 10)%N then "\n"
  else if (n =? 13)%N then "\r"
  else if (n =? 9)%N then "\t"
  else if (n <? 32)%N then
    String BS (String "u" (String "0" (String "0"
      (String (hex_digit (N.div n 16)) (String (hex_digit (N.modulo n 16)) EmptyString)))))
  else String c EmptyString.

Fixpoint escape (s : string) : string :=
  match s with
  | EmptyString => EmptyString
  | String c s' => (escape_char c ++ escape s')%string
  end.

Definition quote (s : string) : string := String DQ (escape s ++ String DQ EmptyString)%string.

Fixpoint join (sep : string) (l : list string) : string :=
  match l with
  | [] => EmptyString
  | [x] => x
  | x :: l' => (x ++ sep ++ join sep l')%string
  end.

(** [json.dumps] with its default separators [", "] and [": "]. *)
Fixpoint dumps_json (v : json) : string :=
  match v with
  | JNull => "null"
  | JBool true => "true"
  | JBool false => "false"
  | JNum q => show_Q q
  | JStr s => quote s
  | JArr l => ("[" ++ join ", " (map dumps_json l) ++ "]")%string
  | JObj kvs =>
      ("{" ++ join ", " (map (fun kv => quote (fst kv) ++ ": " ++ dumps_json (snd kv))%string kvs)
       ++ "}")%string
  end.

(** *** Parsing *)

Definition is_json_ws (c : ascii) : bool :=
  let n := Ascii.N_of_ascii c in ((n =? 32) || (n =? 9) || (n =? 10) || (n =? 13))%N.

Fixpoint skip_ws (l : list ascii) : list ascii :=
  match l with
  | c :: l' => if is_json_ws c then skip_ws l' else l
  | [] => []
  end.

(** The rest of [l] after the character [c], past leading whitespace. *)
Definition expect (c : ascii) (l : list ascii) : option (list ascii) :=
  match skip_ws l with
  | d :: r => if Ascii.eqb c d then Some r else None
  | [] => None
  end.

Fixpoint drop_prefix (p l : list ascii) : option (list ascii) :=
  match p, l with
  | [], _ => Some l
  | c :: p', d :: l' => if Ascii.eqb c d then drop_prefix p' l' else None
  | _ :: _, [] => None
  end.

Definition hex_val (c : ascii) : option N :=
  let n := Ascii.N_of_ascii c in
  if ((48 <=? n) && (n <=? 57))%N then Some (n - 48)%N
  else if ((97 <=? n) && (n <=? 102))%N then Some (n - 87)%N
  else if ((65 <=? n) && (n <=? 70))%N then Some (n - 55)%N
  else None.

(** The characters of a string literal after its opening quote, and the
    text after its closing quote; [\uXXXX] escapes above 127 are refused. *)
Fixpoint parse_str (l : list ascii) : option (list ascii * list ascii) :=
  match l with
  | [] => None
  | c :: l' =>
      if Ascii.eqb c DQ then Some ([], l')
      else if Ascii.eqb c BS then
        match l' with
        | [] => None
        | e :: l'' =>
            let simple (d : ascii) :=
              match parse_str l'' with
              | Some (cs, r) => Some (d :: cs, r)
              | None => None
              end in
            let n := Ascii.N_of_ascii e in
            if (n =? 34)%N then simple DQ
            else if (n =? 92)%N then simple BS
            else if (n =? 47)%N then simple e
            else if (n =? 98)%N then simple (Ascii.ascii_of_N 8)
            else if (n =? 102)%N then simple (Ascii.ascii_of_N 12)
            else if (n =? 110)%N then simple LF
            else if (n =? 114)%N then simple CR
            else if (n =? 116)%N then simple (Ascii.ascii_of_N 9)
            else if (n =? 117)%N then
              match l'' with
              | h1 :: h2 :: h3 :: h4 :: rest =>
                  match hex_val h1, hex_val h2, hex_val h3, hex_val h4 with
                  | Some a, Some b, Some c', Some d =>
                      let code := (((a * 16 + b) * 16 + c') * 16 + d)%N in
                      if (code <? 128)%N then
                        match parse_str rest with
                        | Some (cs, r) => Some (Ascii.ascii_of_N code :: cs, r)
                        | None => None
                        end
                      else None
                  | _, _, _, _ => None
                  end
              | _ => None
              end
            else None
        end
      else if (Ascii.N_of_ascii c <? 32)%N then None
      else match parse_str l' with
           | Some (cs, r) => Some (c :: cs, r)
           | None => None
           end
  end.

Definition is_digit (c : ascii) : bool :=
  let n := Ascii.N_of_ascii c in ((48 <=? n) && (n <=? 57))%N.

Fixpoint read_digits (l : list ascii) : list ascii * list ascii :=
  match l with
  | c :: l' =>
      if is_digit c then let (ds, r) := read_digits l' in (c :: ds, r) else ([], l)
  | [] => ([], [])
  end.

Definition digits_value (ds : list ascii) : Z :=
  fold_left (fun acc d => acc * 10 + Z.of_N (Ascii.N_of_ascii d - 48))%Z ds 0%Z.

(** [-?int(.digits)?([eE][+-]?digits)?], the value in lowest terms. *)
Definition parse_number (l : list ascii) : option (Q * list ascii) :=
  let '(neg, l1) := match l with
                    | c :: l' => if Ascii.eqb c "-" then (true, l') else (false, l)
                    | [] => (false, l)
                    end in
  let (ip, l2) := read_digits l1 in
  match ip with
  | [] => None
  | d0 :: ip' =>
      if Ascii.eqb d0 "0" && negb (Nat.eqb (length ip') 0) then None else
      let '(fp, ok, l3) :=
        match l2 with
        | c :: l' =>
            if Ascii.eqb c "." then
              let (fd, r) := read_digits l' in (fd, negb (Nat.eqb (length fd) 0), r)
            else ([], true, l2)
        | [] => ([], true, l2)
        end in
      let '(ex, ok', l4) :=
        match l3 with
        | c :: l' =>
            if Ascii.eqb c "e" || Ascii.eqb c "E" then
              let '(eneg, l'') := match l' with
                                  | s :: t => if Ascii.eqb s "-" then (true, t)
                                              else if Ascii.eqb s "+" then (false, t)
                                              else (false, l')
                                  | [] => (false, l')
                                  end in
              let (ed, r) := read_digits l'' in
              ((if eneg then - digits_value ed else digits_value ed)%Z,
               negb (Nat.eqb (length ed) 0), r)
            else (0%Z, true, l3)
        | [] => (0%Z, true, l3)
        end in
      if ok && ok' then
        let m := digits_value (ip ++ fp) in
        let m := if neg then (- m)%Z else m in
        let e := (ex - Z.of_nat (length fp))%Z in
        let q := if (0 <=? e)%Z then inject_Z (m * 10 ^ e) else Qmake m (Z.to_pos (10 ^ (- e))) in
        Some (Qred q, l4)
      else None
  end.

Fixpoint parse_value (fuel : nat) (l : list ascii) : option (json * list ascii) :=
  match fuel with
  | O => None
  | S f =>
      match skip_ws l with
      | [] => None
      | c :: l' =>
          if Ascii.eqb c "n" then
            match drop_prefix (list_ascii_of_string "ull") l' with
            | Some r => Some (JNull, r) | None => None end
          else if Ascii.eqb c "t" then
            match drop_prefix (list_ascii_of_string "rue") l' with
            | Some r => Some (JBool true, r) | None => None end
          else if Ascii.eqb c "f" then
            match drop_prefix (list_ascii_of_string "alse") l' with
            | Some r => Some (JBool false, r) | None => None end
          else if Ascii.eqb c DQ then
            match parse_str l' with
            | Some (cs, r) => Some (JStr (string_of_list_ascii cs), r)
            | None => None
            end
          else if Ascii.eqb c "[" then
            match expect "]" l' with
            | Some r => Some (JArr [], r)
            | None => parse_elems f l' []
            end
          else if Ascii.eqb c "{" then
            match expect "}" l' with
            | Some r => Some (JObj [], r)
            | None => parse_members f l' []
            end
          else
            match parse_number (c :: l') with
            | Some (q, r) => Some (JNum q, r)
            | None => None
            end
      end
  end
with parse_elems (fuel : nat) (l : list ascii) (acc : list json)
    : option (json * list ascii) :=
  match fuel with
  | O => None
  | S f =>
      match parse_value f l with
      | None => None
      | Some (v, r) =>
          match expect "," r with
          | Some r' => parse_elems f r' (acc ++ [v])
          | None =>
              match expect "]" r with
              | Some r' => Some (JArr (acc ++ [v]), r')
              | None => None
              end
          end
      end
  end
with parse_members (fuel : nat) (l : list ascii) (acc : dict)
    : option (json * list ascii) :=
  match fuel with
  | O => None
  | S f =>
      match expect DQ l with
      | None => None
      | Some l1 =>
          match parse_str l1 with
          | None => None
          | Some (k, r) =>
              match expect ":" r with
              | None => None
              | Some r1 =>
                  match parse_value f r1 with
                  | None => None
                  | Some (v, r2) =>
                      let acc' := dict_set (string_of_list_ascii k) v acc in
                      match expect "," r2 with
                      | Some r3 => parse_members f r3 acc'
                      | None =>
                          match expect "}" r2 with
                          | Some r3 => Some (JObj acc', r3)
                          | None => None
                          end
                      end
                  end
              end
          end
      end
  end.

(** [json.loads]: one value, then only whitespace; a repeated key keeps
    its first position and its last value, as in a Python dict. *)
Definition loads_json (s : string) : option json :=
  let l := list_ascii_of_string s in
  match parse_value (2 * length l + 2) l with
  | Some (v, r) => if forallb is_json_ws r then Some v else None
  | None => None
  end.

#[export] Instance json_lib : JsonLib := {| dumps := dumps_json; loads := loads_json |}.

End PyJson.

Module Clock.

(** A stand-in for the ISO format: the microsecond count in decimal. *)
Definition iso_dec (t : Z) : string := PyJson.show_Z t.

Definition from_iso_dec (s : string) : option Z :=
  let l := list_ascii_of_string s in
  let '(neg, l1) := match l with
                    | c :: l' => if Ascii.eqb c "-" then (true, l') else (false, l)
                    | [] => (false, l)
                    end in
  let (ds, r) := PyJson.read_digits l1 in
  match ds, r with
  | _ :: _, [] => Some (if neg then - PyJson.digits_value ds else PyJson.digits_value ds)%Z
  | _, _ => None
  end.

#[export] Instance clock_lib : ClockLib := {| isoformat := iso_dec; fromisoformat := from_iso_dec |}.

End Clock.

(** ** Text predicates used by the properties *)

(** Whether a line of text contains a line break (["\n"] or ["\r"]). *)
Definition has_line_break (s : string) : bool :=
  existsb (fun c => Ascii.eqb c LF || Ascii.eqb c CR) (list_ascii_of_string s).

(** Whether a file's text is empty or ends with ["\n"], as every file the
    logger writes does. *)
Definition ends_with_newline (c : string) : bool :=
  match rev (list_ascii_of_string c) with
  | [] => true
  | x :: _ => Ascii.eqb x LF
  end.

Definition file_ends_clean (f : option string) : bool :=
  match f with None => true | Some c => ends_with_newline c end.

(** [v.get(k)] for a JSON value read back from the log. *)
Definition json_get (v : json) (k : string) : option json :=
  match v with JObj d => dict_get k d | _ => None end.

(** ** The spec's reading of [get_best_run] *)

(** The metrics dict of a run read back from the log ([{}] when the key is
    missing); [None] when the run or its metrics are not dicts. *)
Definition run_metric_dict (r : json) : option dict :=
  match r with
  | JObj d =>
      match dict_get "metrics" d with
      | None => Some []
      | Some (JObj md) => Some md
      | Some _ => None
      end
  | _ => None
  end.

(** The value of [metric] in a run: none when the key is missing, null, or
    an empty series; for a series, the value of its last entry. *)
Definition spec_metric (metric : string) (r : json) : option json :=
  match run_metric_dict r with
  | Some md =>
      match dict_get metric md with
      | None | Some JNull => None
      | Some (JArr es) =>
          match last es JNull with
          | JObj e => dict_get "value" e
          | _ => None
          end
      | Some v => Some v
      end
  | None => None
  end.

(** Runs whose [metric] is missing or numeric (a plain number, or a series
    whose last entry carries a numeric [value]). *)
Definition numeric_metric (metric : string) (r : json) : bool :=
  match run_metric_dict r with
  | Some md =>
      match dict_get metric md with
      | None | Some JNull | Some (JArr []) => true
      | Some (JArr es) =>
          match last es JNull with
          | JObj e =>
              match dict_get "value" e with Some v => is_py_number v | None => false end
          | _ => false
          end
      | Some v => is_py_number v
      end
  | None => false
  end.

(** The value compared: a missing value is [-inf] when maximizing and
    [+inf] when minimizing. *)
Definition spec_key (maximize : bool) (metric : string) (r : json) : ext :=
  match spec_metric metric r with
  | Some v => Fin (num_of v)
  | None => if maximize then NegInf else PosInf
  end.

(** [a] is strictly better than [b]. *)
Definition better (maximize : bool) (a b : ext) : bool :=
  if maximize then ext_lt b a else ext_lt a b.

(** The run has a value for [metric]. *)
Definition has_metric (metric : string) (r : json) : bool :=
  match spec_metric metric r with Some _ => true | None => false end.

(** ** The spec's reading of [get_summary] *)

(** [r.get("status") == s]. *)
Definition status_is (s : string) (r : json) : bool := is_str s (json_get r "status").

(** The value of [k] in a run's metrics, when it is a number. *)
Definition numeric_value (k : string) (r : json) : list json :=
  match run_metric_dict r with
  | Some md =>
      match dict_get k md with
      | Some v => if is_py_number v then [v] else []
      | None => []
      end
  | None => []
  end.

(** The numeric values of [k] over the completed runs, in file order. *)
Definition completed_values (k : string) (runs : list json) : list json :=
  flat_map (numeric_value k) (filter (status_is "completed") runs).

Definition spec_sum (vs : list json) : Q := fold_right (fun v acc => num_of v + acc) 0 vs.

Fixpoint distinct_keys (d : dict) : bool :=
  match d with
  | [] => true
  | (k, _) :: d' => negb (existsb (String.eqb k) (map fst d')) && distinct_keys d'
  end.

Definition is_dict (v : json) : bool := match v with JObj _ => true | _ => false end.

(** Runs as [json.loads] returns the records [end_run] writes: dicts, whose
    metrics, in a completed run, are missing or a dict. *)
Definition summary_wf (runs : list json) : bool :=
  forallb (fun r => is_dict r &&
             (negb (status_is "completed" r) ||
              match run_metric_dict r with Some md => distinct_keys md | None => false end))
          runs.

(** [metric_values.get(k, [])]. *)
Fixpoint mv_get (k : string) (mv : value_lists) : list json :=
  match mv with
  | [] => []
  | (k', vs) :: mv' => if String.eqb k k' then vs else mv_get k mv'
  end.

(** The numeric values of key [k] in the items of a dict. *)
Definition items_values (k : string) (items : dict) : list json :=
  flat_map (fun kv => if String.eqb k (fst kv) && is_py_number (snd kv)
                      then [snd kv] else []) items.

(** Every key of [metric_values] has a non-empty list. *)
Definition lists_nonempty (mv : value_lists) : Prop := Forall (fun p => snd p <> []) mv.

(** ** The spec's reading of a sequence of [log_metrics] calls *)

Definition mentions (k : string) (ks : list string) : bool := existsb (String.eqb k) ks.

(** The keys logged with a step, and without one. *)
Definition step_keys (cs : list metrics_call) : list string :=
  flat_map (fun c => match mc_step c with Some _ => dict_keys (mc_metrics c) | None => [] end) cs.

Definition scalar_keys (cs : list metrics_call) : list string :=
  flat_map (fun c => match mc_step c with Some _ => [] | None => dict_keys (mc_metrics c) end) cs.

(** The last value logged for [k] without a step. *)
Fixpoint last_scalar (k : string) (cs : list metrics_call) : option json :=
  match cs with
  | [] => None
  | c :: cs' =>
      match last_scalar k cs' with
      | Some v => Some v
      | None => match mc_step c with None => dict_get k (mc_metrics c) | Some _ => None end
      end
  end.

Definition series_of (v : option json) : list json :=
  match v with Some (JArr es) => es | _ => [] end.

Definition series_or_absent (v : option json) : bool :=
  match v with None | Some (JArr _) => true | _ => false end.

Section SpecMetrics.
Context `{ClockLib}.

(** The entries [{step, value, timestamp}] of the calls with a step that
    name [k], in the order of the calls. *)
Definition expected_series (k : string) (cs : list metrics_call) : list json :=
  flat_map (fun c => match mc_step c, dict_get k (mc_metrics c) with
                     | Some s, Some v => [series_entry s v (mc_now c)]
                     | _, _ => []
                     end) cs.

(** The value of [k] after one call, and after a sequence of calls. *)
Definition metric_step (k : string) (acc : option json) (c : metrics_call) : option json :=
  match dict_get k (mc_metrics c) with
  | None => acc
  | Some v =>
      match mc_step c with
      | Some s => Some (JArr (series_of acc ++ [series_entry s v (mc_now c)]))
      | None => Some v
      end
  end.

Definition metric_after (k : string) (cs : list metrics_call) (v0 : option json)
    : option json :=
  fold_left (metric_step k) cs v0.

End SpecMetrics.

(** ** Helpers for the further properties *)

(** A client program: calls on one logger, in order; an exception ends it. *)
Fixpoint run_all (ops : list (logger -> result unit * logger)) (lg : logger)
    : result unit * logger :=
  match ops with
  | [] => (Ok tt, lg)
  | op :: ops' =>
      match op lg with
      | (Ok _, lg') => run_all ops' lg'
      | (Err e, lg') => (Err e, lg')
      end
  end.

(** The value of [k] in the last dict of [ps] that names it. *)
Fixpoint last_value (k : string) (ps : list dict) : option json :=
  match ps with
  | [] => None
  | p :: ps' => match last_value k ps' with Some v => Some v | None => dict_get k p end
  end.

(** [run.get("start_time")]. *)
Definition start_or_null (r : json) : json :=
  match json_get r "start_time" with Some v => v | None => JNull end.

Section SpecArtifacts.
Context `{ClockLib}.

(** The record [log_artifact(path, artifact_type)] appends at time [now]. *)
Definition artifact_entry (a : string * string * Z) : json :=
  let '(path, ty, now) := a in
  JObj [("path", JStr path); ("type", JStr ty); ("logged_at", JStr (isoformat now))].

End SpecArtifacts.

(** ** Concrete states for examples *)

Import PyJson Clock.

Definition lg_empty : logger := mk_logger "exp" None None None.

(** A logger holding the active run ["aaaa1111"], started at time 100. *)
Definition lg_active : logger :=
  snd (start_run None None None None "aaaa1111" 100 lg_empty).

(** The same run after [log_metrics({"snr": 1}, step=0)]. *)
Definition lg_series : logger :=
  snd (log_metrics [("snr", JNum 1)] (Some 0%Z) 110 lg_active).

(** The same run after [log_metrics({"snr": 1})]. *)
Definition lg_scalar : logger :=
  snd (log_metrics [("snr", JNum 1)] None 110 lg_active).

(** A log file whose second line is not JSON. *)
Definition lg_corrupt : logger :=
  mk_logger "exp" None None
    (Some (dumps_json (JObj [("run_id", JStr "r1")]) ++ newline ++ "not json" ++ newline)%string).

(** A [with] body that logs a metric and then raises [ValueError("diverged")]. *)
Definition body_diverges (lg : logger) : result unit * logger :=
  let (_, lg') := log_metrics [("snr", JNum 3)] None 105 lg in
  (Err (mk_exn "ValueError" "diverged"), lg').

(** The run of [lg_active]. *)
Definition run_a : run :=
  mk_run "aaaa1111" "exp" None None None [] [] [] [] (isoformat 100) None "running" None None.

(** Two finished runs that never logged ["snr"]. *)
Definition lg_two_runs : logger :=
  let lg1 := snd (end_run "completed" None 105 lg_active) in
  let lg2 := snd (start_run None None None None "bbbb2222" 110 lg1) in
  snd (end_run "completed" None 120 lg2).

(** A completed run that logged the scalar ["snr"] = [v]. *)
Definition run_with_snr (uid : string) (t : Z) (v : Q) (lg : logger) : logger :=
  let lg1 := snd (start_run None None None None uid t lg) in
  let lg2 := snd (log_metrics [("snr", JNum v)] None (t + 1)%Z lg1) in
  snd (end_run "completed" None (t + 2)%Z lg2).

(** Three runs with ["snr"] values 10.0, 25.5 and 18.2, in that order. *)
Definition lg_snr : logger :=
  run_with_snr "cccc3333" 300 (91 # 5)
    (run_with_snr "bbbb2222" 200 (51 # 2)
       (run_with_snr "aaaa1111" 100 10 lg_empty)).

Definition runs_snr : list json :=
  match get_runs lg_snr with Ok rs => rs | Err _ => [] end.

Definition runs_two : list json :=
  match get_runs lg_two_runs with Ok rs => rs | Err _ => [] end.

(** A finished run that logged the scalar metric [k] = [v]. *)
Definition run_with_metric (uid : string) (t : Z) (status k : string) (v : json)
    (lg : logger) : logger :=
  let lg1 := snd (start_run None None None None uid t lg) in
  let lg2 := snd (log_metrics [(k, v)] None (t + 1)%Z lg1) in
  snd (end_run status None (t + 2)%Z lg2).

(** Two completed runs with ["mse"] 0.01 and 0.03, and a failed run with
    ["mse"] 100.0. *)
Definition lg_mse : logger :=
  run_with_metric "cccc3333" 300 "failed" "mse" (JNum 100)
    (run_with_metric "bbbb2222" 200 "completed" "mse" (JNum (3 # 100))
       (run_with_metric "aaaa1111" 100 "completed" "mse" (JNum (1 # 100)) lg_empty)).

Definition runs_mse : list json :=
  match get_runs lg_mse with Ok rs => rs | Err _ => [] end.

(** A completed run that logged the flag ["converged"] = [True]. *)
Definition lg_flag : logger :=
  run_with_metric "aaaa1111" 100 "completed" "converged" (JBool true) lg_empty.

(** Two epochs of ["loss"] with a step, then ["snr"] twice without one. *)
Definition calls_example : list metrics_call :=
  [mk_call [("loss", JNum 1)] (Some 0%Z) 110;
   mk_call [("loss", JNum (1 # 2)); ("acc", JNum (9 # 10))] (Some 1%Z) 111;
   mk_call [("snr", JNum 3)] None 112;
   mk_call [("snr", JNum 4)] None 113].

(** * Properties *)

(** ** Strings and dicts *)

Lemma str_app_assoc (a b c : string) :
  (a ++ (b ++ c))%string = ((a ++ b) ++ c)%string.
Proof. induction a as [|x a IH]; simpl; [reflexivity | now rewrite IH]. Qed.

Lemma str_app_nil_r (a : string) : (a ++ EmptyString)%string = a.
Proof. induction a as [|x a IH]; simpl; [reflexivity | now rewrite IH]. Qed.

Lemma dict_get_set (k k' : string) (v : json) (d : dict) :
  dict_get k (dict_set k' v d) = if String.eqb k k' then Some v else dict_get k d.
Proof.
  induction d as [|[k0 v0] d IH]; simpl.
  - reflexivity.
  - destruct (String.eqb_spec k' k0) as [<-|Hne]; simpl.
    + now destruct (String.eqb k k').
    + rewrite IH.
      destruct (String.eqb_spec k k0) as [->|]; [|reflexivity].
      destruct (String.eqb_spec k0 k'); [congruence|reflexivity].
Qed.

Lemma dict_get_notin (k : string) (d : dict) :
  ~ In k (dict_keys d) -> dict_get k d = None.
Proof.
  induction d as [|[k0 v0] d IH]; simpl; intros Hn; [reflexivity|].
  destruct (String.eqb_spec k k0); [subst; tauto|]. apply IH; tauto.
Qed.

Lemma dict_get_in (k : string) (d : dict) (v : json) :
  dict_get k d = Some v -> In k (dict_keys d).
Proof.
  induction d as [|[k0 v0] d IH]; simpl; [discriminate|].
  destruct (String.eqb_spec k k0); auto.
Qed.

(** [d.update(new)] for a dict [new] (its keys are distinct). *)
Lemma dict_get_update (k : string) (new d : dict) :
  NoDup (dict_keys new) ->
  dict_get k (dict_update d new) =
    match dict_get k new with Some v => Some v | None => dict_get k d end.
Proof.
  revert d. induction new as [|[k0 v0] new IH]; intros d Hnd; [reflexivity|].
  inversion Hnd as [|? ? Hnin Hnd']; subst.
  change (dict_update d ((k0, v0) :: new)) with (dict_update (dict_set k0 v0 d) new).
  rewrite IH by exact Hnd'. simpl.
  rewrite dict_get_set.
  destruct (String.eqb_spec k k0) as [->|]; [|reflexivity].
  now rewrite dict_get_notin.
Qed.

Section Lifecycle.
Context `{JsonLib} `{ClockLib}.

(** C1 (amended).  [start_run] never raises: whatever the state, it returns
    the new id and installs a fresh running run in place of the active one,
    which is dropped without being written to the log file. *)
Theorem start_run_replaces_active (pipeline dataset config_path : option string)
    (tags : option dict) (uid : string) (now : Z) (lg : logger) :
  let '(res, lg') := start_run pipeline dataset config_path tags uid now lg in
  res = Ok uid /\ cur_run_id lg' = Some uid /\ log_file lg' = log_file lg /\
  exists r, current_run lg' = Some r /\ run_run_id r = uid /\
    run_status r = "running" /\ run_parameters r = [] /\ run_metrics r = [] /\
    run_artifacts r = [] /\ run_start_time r = isoformat now /\
    run_end_time r = None /\ run_error r = None.
Proof.
  simpl. repeat split. eexists. repeat split.
Qed.

(** C8 (amended).  With no active run, [log_params], [log_metrics],
    [log_artifact] and [end_run] raise a [RuntimeError] ("No active run.
    Call start_run() first." or, for [end_run], "No active run to end.")
    and leave the logger, log file included, as it was. *)
Theorem no_active_run_errors (lg : logger) :
  current_run lg = None ->
  (forall params, log_params params lg = (Err no_active_run, lg)) /\
  (forall metrics step now, log_metrics metrics step now lg = (Err no_active_run, lg)) /\
  (forall path ty now, log_artifact path ty now lg = (Err no_active_run, lg)) /\
  (forall status error now, end_run status error now lg = (Err no_active_run_to_end, lg)) /\
  exn_type no_active_run = "RuntimeError" /\ exn_type no_active_run_to_end = "RuntimeError".
Proof.
  intros Hnone.
  unfold log_params, log_metrics, log_artifact, end_run; rewrite Hnone.
  repeat split.
Qed.

(** C9.  Logging a key without a step while it holds a time series replaces
    the whole series by the scalar; the other keys and the other fields of
    the run are untouched. *)
Theorem scalar_overwrites_series (lg : logger) (r : run) (k : string)
    (es : list json) (metrics : dict) (v : json) (now : Z) :
  current_run lg = Some r ->
  dict_get k (run_metrics r) = Some (JArr es) ->
  NoDup (dict_keys metrics) ->
  dict_get k metrics = Some v ->
  exists m', log_metrics metrics None now lg = (Ok tt, set_current lg (with_metrics r m')) /\
    dict_get k m' = Some v /\
    (forall k', dict_get k' metrics = None -> dict_get k' m' = dict_get k' (run_metrics r)).
Proof.
  intros Hcur _ Hnd Hk.
  exists (dict_update (run_metrics r) metrics).
  unfold log_metrics; rewrite Hcur. split; [reflexivity|]. split.
  - now rewrite dict_get_update, Hk.
  - intros k' Hk'. now rewrite dict_get_update, Hk'.
Qed.

End Lifecycle.

(** C1: a second [start_run] on an active run succeeds and overwrites it;
    the first run is never written. *)
Lemma start_run_on_active_run_succeeds :
  option_map run_run_id (current_run lg_active) = Some "aaaa1111" /\
  fst (start_run None None None None "bbbb2222" 200 lg_active) = Ok "bbbb2222" /\
  option_map run_run_id (current_run (snd (start_run None None None None "bbbb2222" 200 lg_active)))
    = Some "bbbb2222" /\
  log_file (snd (start_run None None None None "bbbb2222" 200 lg_active)) = None.
Proof. vm_compute. repeat split. Qed.

(** C8: the exception raised without an active run is a [RuntimeError]. *)
Lemma log_metrics_without_run_raises_runtime_error :
  match fst (log_metrics [("snr", JNum 1)] None 0 lg_empty) with
  | Err e => exn_type e = "RuntimeError" /\ exn_type e <> "NoActiveRunError"
  | Ok _ => False
  end.
Proof. vm_compute. split; [reflexivity | discriminate]. Qed.

Lemma no_active_run_errors_witness :
  current_run lg_empty = None /\
  log_metrics [("snr", JNum 1)] None 0 lg_empty = (Err no_active_run, lg_empty).
Proof.
  split; [reflexivity|].
  apply (no_active_run_errors lg_empty eq_refl).
Defined.

Lemma scalar_overwrites_series_witness :
  exists r m', current_run lg_series = Some r /\
    log_metrics [("snr", JNum 5)] None 120 lg_series = (Ok tt, set_current lg_series (with_metrics r m')) /\
    dict_get "snr" m' = Some (JNum 5).
Proof.
  destruct (scalar_overwrites_series lg_series _ "snr" _ [("snr", JNum 5)] (JNum 5) 120
              eq_refl eq_refl ltac:(repeat constructor; simpl; tauto) eq_refl)
    as [m' [H1 [H2 _]]].
  eexists. exists m'. split; [reflexivity|]. split; [exact H1 | exact H2].
Defined.

(** ** Reading lines back *)

Lemma eqb_LF_CR : Ascii.eqb LF CR = false.
Proof. reflexivity. Qed.

Lemma eqb_LF_LF : Ascii.eqb LF LF = true.
Proof. reflexivity. Qed.

Lemma translate_nl_app (n : nat) (p b : string) :
  (String.length p <= n)%nat ->
  translate_newlines ((p ++ newline) ++ b) =
    (translate_newlines (p ++ newline) ++ translate_newlines b)%string.
Proof.
  revert p b. induction n as [|n IH]; intros p b Hl.
  - destruct p; [|simpl in Hl; lia]. reflexivity.
  - destruct p as [|c p']; [reflexivity|]. simpl in Hl.
    cbn [String.append translate_newlines].
    destruct (Ascii.eqb c CR) eqn:Hc.
    + destruct p' as [|c2 p''].
      * reflexivity.
      * cbn [String.append]. simpl in Hl.
        destruct (Ascii.eqb c2 LF) eqn:Hc2.
        -- cbn [String.append]. f_equal. apply IH. lia.
        -- cbn [String.append]. f_equal.
           change (String c2 ((p'' ++ newline) ++ b))%string
             with ((String c2 p'' ++ newline) ++ b)%string.
           change (String c2 (p'' ++ newline))%string with (String c2 p'' ++ newline)%string.
           apply IH. simpl. lia.
    + cbn [String.append]. f_equal. apply IH. lia.
Qed.

Lemma translate_ends_nl (n : nat) (p : string) :
  (String.length p <= n)%nat ->
  exists q, translate_newlines (p ++ newline) = (q ++ newline)%string.
Proof.
  revert p. induction n as [|n IH]; intros p Hl.
  - destruct p; [|simpl in Hl; lia]. exists EmptyString. reflexivity.
  - destruct p as [|c p']; [exists EmptyString; reflexivity|]. simpl in Hl.
    cbn [String.append translate_newlines].
    destruct (Ascii.eqb c CR) eqn:Hc.
    + destruct p' as [|c2 p''].
      * exists EmptyString. reflexivity.
      * cbn [String.append]. simpl in Hl.
        destruct (Ascii.eqb c2 LF) eqn:Hc2.
        -- destruct (IH p'' ltac:(lia)) as [q Hq]. exists (String LF q).
           cbn [String.append]. now rewrite Hq.
        -- destruct (IH (String c2 p'') ltac:(simpl; lia)) as [q Hq].
           exists (String LF q). cbn [String.append]. f_equal. exact Hq.
    + destruct (IH p' ltac:(lia)) as [q Hq]. exists (String c q).
      cbn [String.append]. now rewrite Hq.
Qed.

Lemma translate_plain (d : string) :
  has_line_break d = false ->
  translate_newlines (d ++ newline) = (d ++ newline)%string.
Proof.
  induction d as [|c d IH]; intros Hd; [reflexivity|].
  unfold has_line_break in Hd. simpl in Hd.
  apply orb_false_iff in Hd as [Hc Hd]. apply orb_false_iff in Hc as [_ Hc].
  cbn [String.append translate_newlines]. rewrite Hc. f_equal. now apply IH.
Qed.

Lemma py_lines_nonempty (s : string) : s <> EmptyString -> py_lines s <> [].
Proof.
  destruct s as [|c s]; [congruence|]. intros _. simpl.
  destruct (Ascii.eqb c LF); [discriminate|]. destruct (py_lines s); discriminate.
Qed.

Lemma py_lines_nl_app (q b : string) :
  py_lines ((q ++ newline) ++ b) = py_lines (q ++ newline) ++ py_lines b.
Proof.
  induction q as [|c q IH]; [reflexivity|].
  cbn [String.append py_lines]. destruct (Ascii.eqb c LF).
  - simpl. f_equal. exact IH.
  - rewrite IH.
    assert (Hne : py_lines (q ++ newline) <> []).
    { apply py_lines_nonempty. destruct q; discriminate. }
    destruct (py_lines (q ++ newline)) as [|l ls]; [congruence|]. reflexivity.
Qed.

Lemma py_lines_single (d : string) :
  has_line_break d = false -> py_lines (d ++ newline) = [(d ++ newline)%string].
Proof.
  induction d as [|c d IH]; intros Hd; [reflexivity|].
  unfold has_line_break in Hd. simpl in Hd.
  apply orb_false_iff in Hd as [Hc Hd]. apply orb_false_iff in Hc as [Hc _].
  cbn [String.append py_lines]. rewrite Hc. now rewrite IH.
Qed.

Lemma string_of_list_ascii_app (l : list ascii) (x : ascii) :
  string_of_list_ascii (l ++ [x]) = (string_of_list_ascii l ++ String x EmptyString)%string.
Proof. induction l as [|y l IH]; simpl; [reflexivity | now rewrite IH]. Qed.

Lemma ends_with_newline_spec (c : string) :
  ends_with_newline c = true -> c = EmptyString \/ exists p, c = (p ++ newline)%string.
Proof.
  unfold ends_with_newline.
  pose proof (string_of_list_ascii_of_string c) as Hc.
  destruct (rev (list_ascii_of_string c)) as [|x r] eqn:Hr; intros Hx.
  - left. apply (f_equal (@rev ascii)) in Hr. rewrite rev_involutive in Hr.
    rewrite <- Hc, Hr. reflexivity.
  - right. apply Ascii.eqb_eq in Hx. subst x.
    apply (f_equal (@rev ascii)) in Hr. rewrite rev_involutive in Hr. simpl in Hr.
    exists (string_of_list_ascii (rev r)). rewrite <- Hc, Hr.
    apply string_of_list_ascii_app.
Qed.

Lemma parse_lines_app `{JsonLib} (ls ls' : list string) (a b : list json) :
  parse_lines ls = Ok a -> parse_lines ls' = Ok b -> parse_lines (ls ++ ls') = Ok (a ++ b).
Proof.
  revert a. induction ls as [|l ls IH]; intros a Ha Hb; simpl in *.
  - now inversion Ha; subst.
  - destruct (is_blank l); [now apply IH|].
    destruct (loads l) as [v|]; [|discriminate].
    destruct (parse_lines ls) as [a'|e]; [|discriminate].
    inversion Ha; subst. now rewrite (IH a' eq_refl Hb).
Qed.

(** Appending one JSON line to a log the logger wrote adds exactly one run
    at the end of [get_runs]. *)
Lemma read_runs_append `{JsonLib} (f : option string) (runs : list json)
    (d : string) (v : json) :
  read_runs f = Ok runs -> file_ends_clean f = true ->
  has_line_break d = false -> is_blank (d ++ newline) = false ->
  loads (d ++ newline) = Some v ->
  read_runs (Some (file_text f ++ d ++ newline)%string) = Ok (runs ++ [v]).
Proof.
  intros Hr Hclean Hd Hb Hv.
  assert (Hlast : parse_lines [(d ++ newline)%string] = Ok [v]).
  { simpl. now rewrite Hb, Hv. }
  destruct f as [c|]; cbn [read_runs file_text file_ends_clean] in *.
  - apply ends_with_newline_spec in Hclean as [->|[p ->]].
    + cbn [String.append]. rewrite translate_plain, py_lines_single by exact Hd.
      simpl in Hr. inversion Hr; subst. exact Hlast.
    +       rewrite (translate_nl_app (String.length p)) by lia.
      rewrite (translate_plain d Hd).
      destruct (translate_ends_nl (String.length p) p ltac:(lia)) as [q Hq].
      rewrite Hq in *. rewrite py_lines_nl_app, (py_lines_single d Hd).
      now apply parse_lines_app.
  - inversion Hr; subst. cbn [String.append app].
    rewrite translate_plain, py_lines_single by exact Hd. exact Hlast.
Qed.

Lemma parse_lines_skip_blank `{JsonLib} (ls : list string) :
  parse_lines ls = parse_lines (filter (fun l => negb (is_blank l)) ls).
Proof.
  induction ls as [|l ls IH]; [reflexivity|]. simpl.
  destruct (is_blank l) eqn:E; simpl; [exact IH|]. rewrite E. now rewrite IH.
Qed.

Lemma parse_lines_fail `{JsonLib} (ls : list string) (line : string) :
  In line ls -> is_blank line = false -> loads line = None ->
  parse_lines ls = Err json_decode_error.
Proof.
  induction ls as [|l ls IH]; intros Hin Hb Hl; [destruct Hin|].
  simpl. destruct Hin as [<-|Hin].
  - now rewrite Hb, Hl.
  - rewrite (IH Hin Hb Hl).
    destruct (is_blank l); [reflexivity|].
    destruct (loads l); reflexivity.
Qed.

Section Reading.
Context `{JsonLib}.


End Reading.


(** ** Ending a run *)

Section Ending.
Context `{JsonLib} `{ClockLib}.

Lemma end_run_appends (lg : logger) (r : run) (status : string)
    (error : option string) (now t0 : Z) :
  current_run lg = Some r ->
  fromisoformat (run_start_time r) = Some t0 ->
  fromisoformat (isoformat now) = Some now ->
  end_run status error now lg =
    (Ok tt, mk_logger (experiment_id lg) None None
              (Some (file_text (log_file lg)
                     ++ dumps (run_to_json (finished_record r status error t0 now))
                     ++ newline)%string)).
Proof.
  intros Hcur Ht0 Hnow. unfold end_run. rewrite Hcur. cbn [run_start_time with_end].
  now rewrite Ht0, Hnow.
Qed.

(** The mutators leave the run's id and start time and the log file alone. *)
Lemma mutators_keep_run (lg : logger) (r : run) :
  current_run lg = Some r ->
  (forall params, exists r', snd (log_params params lg) = set_current lg r' /\
     run_run_id r' = run_run_id r /\ run_start_time r' = run_start_time r) /\
  (forall metrics step now, exists r', snd (log_metrics metrics step now lg) = set_current lg r' /\
     run_run_id r' = run_run_id r /\ run_start_time r' = run_start_time r) /\
  (forall path ty now, exists r', snd (log_artifact path ty now lg) = set_current lg r' /\
     run_run_id r' = run_run_id r /\ run_start_time r' = run_start_time r).
Proof.
  intros Hcur. unfold log_params, log_metrics, log_artifact. rewrite Hcur.
  split; [|split].
  - intros params. eexists. repeat split.
  - intros metrics [s|] now.
    + destruct (append_series s now metrics (run_metrics r)) as [res m'].
      eexists. repeat split.
    + eexists. repeat split.
  - intros path ty now. eexists. repeat split.
Qed.



End Ending.



(** ** Selecting the best run *)

Lemma last_hd_rev (l : list json) (d : json) : last l d = hd d (rev l).
Proof.
  induction l as [|x l IH] using rev_ind; [reflexivity|].
  rewrite last_last, rev_unit. reflexivity.
Qed.

Lemma Qltb_true (x y : Q) : Qltb x y = true <-> x < y.
Proof.
  unfold Qltb. rewrite negb_true_iff. split; intro H.
  - apply Qnot_le_lt. intro H'. apply Qle_bool_iff in H'. congruence.
  - destruct (Qle_bool y x) eqn:E; [|reflexivity].
    apply Qle_bool_iff in E. exfalso. exact (Qlt_not_le _ _ H E).
Qed.

Lemma Qltb_false (x y : Q) : Qltb x y = false <-> y <= x.
Proof. unfold Qltb. rewrite negb_false_iff. apply Qle_bool_iff. Qed.

Ltac ext_solve :=
  repeat match goal with
  | H : Qltb _ _ = true |- _ => apply Qltb_true in H
  | H : Qltb _ _ = false |- _ => apply Qltb_false in H
  | |- Qltb _ _ = true => apply Qltb_true
  | |- Qltb _ _ = false => apply Qltb_false
  end;
  first [ apply Qle_refl | apply Qlt_le_weak; assumption
        | eapply Qlt_le_trans; eassumption | eapply Qle_lt_trans; eassumption ].

Lemma ext_lt_irrefl (a : ext) : ext_lt a a = false.
Proof. destruct a; simpl; try reflexivity. ext_solve. Qed.

Lemma ext_lt_asym (a b : ext) : ext_lt a b = true -> ext_lt b a = false.
Proof. intro H; destruct a, b; simpl in *; try discriminate; try reflexivity. ext_solve. Qed.

Lemma ext_lt_le_trans (a b c : ext) :
  ext_lt a b = true -> ext_lt c b = false -> ext_lt a c = true.
Proof.
  intros H1 H2; destruct a, b, c; simpl in *; try discriminate; try reflexivity. ext_solve.
Qed.

Lemma ext_le_lt_trans (a b c : ext) :
  ext_lt a b = false -> ext_lt a c = true -> ext_lt b c = true.
Proof.
  intros H1 H2; destruct a, b, c; simpl in *; try discriminate; try reflexivity. ext_solve.
Qed.

(** The loop of [max]/[min] with a strict order [lt] on the keys [val]: the
    item returned splits the list into a prefix of strictly worse items and
    a rest, and no item is strictly better than it. *)
Section Extremum.
Variable lt : ext -> ext -> bool.
Hypothesis lt_irrefl : forall a, lt a a = false.
Hypothesis lt_asym : forall a b, lt a b = true -> lt b a = false.
Hypothesis lt_le_trans : forall a b c, lt a b = true -> lt c b = false -> lt a c = true.
Hypothesis le_lt_trans : forall a b c, lt a b = false -> lt a c = true -> lt b c = true.
Variable val : json -> ext.
Variable cmp : pykey -> pykey -> result bool.
Hypothesis cmp_spec : forall a b, cmp (KNum a) (KNum b) = Ok (lt b a).
Variable kf : json -> result pykey.

Lemma extremum_loop_spec (rest : list json) (best : json) :
  Forall (fun r => kf r = Ok (KNum (val r))) rest ->
  exists r' pre post,
    extremum_loop cmp kf best (KNum (val best)) rest = Ok r' /\
    best :: rest = pre ++ r' :: post /\
    Forall (fun x => lt (val x) (val r') = true) pre /\
    Forall (fun x => lt (val r') (val x) = false) (best :: rest).
Proof.
  revert best. induction rest as [|y ys IH]; intros best HF.
  - exists best, [], []. repeat split; auto.
  - apply Forall_cons_iff in HF as [Hy Hys]. simpl. rewrite Hy, cmp_spec.
    destruct (lt (val best) (val y)) eqn:Eby.
    + destruct (IH y Hys) as [r' [pre [post [Hl [Hs [Hpre Hall]]]]]].
      apply Forall_cons_iff in Hall as Hall'. destruct Hall' as [Hry Hrest].
      assert (Hbr : lt (val best) (val r') = true) by (eapply lt_le_trans; eassumption).
      exists r', (best :: pre), post. repeat split.
      * exact Hl.
      * rewrite Hs. reflexivity.
      * constructor; assumption.
      * constructor; [apply lt_asym; exact Hbr | exact Hall].
    + destruct (IH best Hys) as [r' [pre [post [Hl [Hs [Hpre Hall]]]]]].
      apply Forall_cons_iff in Hall as Hall'. destruct Hall' as [Hrb Hrest].
      exists r'. destruct pre as [|p pre'].
      * simpl in Hs. injection Hs as Hb Hp; subst r' post.
        exists [], (y :: ys). repeat split; auto.
      * simpl in Hs. injection Hs as Hp Hs'; subst p.
        apply Forall_cons_iff in Hpre as [Hpr Hpre'].
        assert (Hyr : lt (val y) (val r') = true) by (eapply le_lt_trans; eassumption).
        exists (best :: y :: pre'), post. repeat split.
        -- exact Hl.
        -- rewrite Hs'. reflexivity.
        -- constructor; [exact Hpr|]. constructor; assumption.
        -- constructor; [exact Hrb|]. constructor; [apply lt_asym; exact Hyr | exact Hrest].
Qed.

End Extremum.

Lemma get_metric_value_numeric (metric : string) (maximize : bool) (r : json) :
  numeric_metric metric r = true ->
  get_metric_value metric maximize r = Ok (KNum (spec_key maximize metric r)).
Proof.
  unfold numeric_metric, get_metric_value, spec_key, spec_metric, run_metric_dict.
  destruct r as [| | | | |d]; try discriminate.
  destruct (dict_get "metrics" d) as [m|] eqn:Em; [|reflexivity].
  destruct m as [| | | | |md]; try discriminate.
  destruct (dict_get metric md) as [v|]; [|reflexivity].
  destruct v as [|b| | |l|]; try discriminate; try reflexivity.
  destruct l as [|e es]; [reflexivity|].
  rewrite last_hd_rev.
  destruct (rev (e :: es)) as [|x xs] eqn:Er.
  - apply (f_equal (@length json)) in Er. rewrite length_rev in Er. discriminate.
  - simpl. destruct x as [| | | | |ed]; try discriminate.
    destruct (dict_get "value" ed) as [v|]; try discriminate.
    destruct v; try discriminate; reflexivity.
Qed.

Lemma better_irrefl (m : bool) (a : ext) : better m a a = false.
Proof. destruct m; apply ext_lt_irrefl. Qed.

Lemma better_asym (m : bool) (a b : ext) : better m b a = true -> better m a b = false.
Proof. destruct m; apply ext_lt_asym. Qed.

Lemma better_lt_le (m : bool) (a b c : ext) :
  better m b a = true -> better m b c = false -> better m c a = true.
Proof.
  destruct m; simpl; intros H1 H2.
  - exact (ext_lt_le_trans _ _ _ H1 H2).
  - exact (ext_le_lt_trans _ _ _ H2 H1).
Qed.

Lemma better_le_lt (m : bool) (a b c : ext) :
  better m b a = false -> better m c a = true -> better m c b = true.
Proof.
  destruct m; simpl; intros H1 H2.
  - exact (ext_le_lt_trans _ _ _ H1 H2).
  - exact (ext_lt_le_trans _ _ _ H2 H1).
Qed.

Lemma best_of_runs_spec (metric : string) (maximize : bool) (runs : list json) :
  runs <> [] -> forallb (numeric_metric metric) runs = true ->
  exists best pre post,
    best_of_runs metric maximize runs = Ok (Some best) /\
    runs = pre ++ best :: post /\
    Forall (fun x => better maximize (spec_key maximize metric best)
                                     (spec_key maximize metric x) = true) pre /\
    Forall (fun x => better maximize (spec_key maximize metric x)
                                     (spec_key maximize metric best) = false) runs.
Proof.
  intros Hne Hwf. destruct runs as [|r0 rs]; [congruence|].
  rewrite forallb_forall in Hwf.
  assert (Hk : Forall (fun r => get_metric_value metric maximize r
                                = Ok (KNum (spec_key maximize metric r))) rs).
  { apply Forall_forall. intros x Hx. apply get_metric_value_numeric, Hwf. right; exact Hx. }
  destruct (extremum_loop_spec (fun a b => better maximize b a)
              (better_irrefl maximize) (fun a b => better_asym maximize a b)
              (better_lt_le maximize) (better_le_lt maximize)
              (spec_key maximize metric) (if maximize then py_gt else py_lt)
              ltac:(intros a b; destruct maximize; reflexivity)
              (get_metric_value metric maximize) rs r0 Hk)
    as [best [pre [post [Hl [Hs [Hpre Hall]]]]]].
  exists best, pre, post. repeat split; try assumption.
  unfold best_of_runs, py_extremum.
  rewrite (get_metric_value_numeric metric maximize r0 (Hwf r0 (or_introl eq_refl))).
  simpl. rewrite Hl. reflexivity.
Qed.

Section BestRun.
Context `{JsonLib}.



End BestRun.

(** The example of the spec: ["snr"] values 10.0, 25.5, 18.2 select the
    second run when maximizing and the first when minimizing. *)
Example best_snr_maximize :
  (match get_best_run "snr" true lg_snr with
   | Ok (Some r) => json_get r "run_id" | _ => None end) = Some (JStr "bbbb2222").
Proof. vm_compute. reflexivity. Qed.

Example best_snr_minimize :
  (match get_best_run "snr" false lg_snr with
   | Ok (Some r) => json_get r "run_id" | _ => None end) = Some (JStr "aaaa1111").
Proof. vm_compute. reflexivity. Qed.




(** ** The summary *)

Lemma runs_with_status_filter (s : string) (runs : list json) :
  Forall (fun r => is_dict r = true) runs ->
  runs_with_status s runs = Ok (filter (status_is s) runs).
Proof.
  induction runs as [|r rs IH]; intro HF; [reflexivity|].
  apply Forall_cons_iff in HF as [Hr Hrs].
  destruct r as [| | | | |d]; try discriminate.
  simpl. rewrite (IH Hrs). reflexivity.
Qed.

Lemma mv_get_add (k k' : string) (v : json) (mv : value_lists) :
  mv_get k (mv_add k' v mv) =
    if String.eqb k k' then mv_get k mv ++ [v] else mv_get k mv.
Proof.
  induction mv as [|[k1 vs] mv IH]; simpl.
  - destruct (String.eqb k k'); reflexivity.
  - destruct (String.eqb k' k1) eqn:E1; simpl.
    + apply String.eqb_eq in E1; subst k1.
      destruct (String.eqb k k'); reflexivity.
    + destruct (String.eqb k k1) eqn:E2; [|exact IH].
      apply String.eqb_eq in E2; subst k1.
      rewrite String.eqb_sym, E1. reflexivity.
Qed.

Lemma mv_get_collect (k : string) (items : dict) (mv : value_lists) :
  mv_get k (collect_metrics items mv) = mv_get k mv ++ items_values k items.
Proof.
  revert mv. induction items as [|[k' v] items IH]; intro mv; simpl.
  - rewrite app_nil_r. reflexivity.
  - rewrite IH. destruct (is_py_number v); simpl.
    + rewrite mv_get_add, andb_true_r.
      destruct (String.eqb k k'); simpl; [rewrite <- app_assoc|]; reflexivity.
    + rewrite andb_false_r. reflexivity.
Qed.

Lemma items_values_cons (k k' : string) (v : json) (items : dict) :
  items_values k ((k', v) :: items) =
    (if String.eqb k k' && is_py_number v then [v] else []) ++ items_values k items.
Proof. reflexivity. Qed.

Lemma items_values_absent (k : string) (items : dict) :
  existsb (String.eqb k) (map fst items) = false -> items_values k items = [].
Proof.
  induction items as [|[k' v] items IH]; intro H; [reflexivity|].
  simpl in H. apply orb_false_iff in H as [H1 H2].
  rewrite items_values_cons, H1. exact (IH H2).
Qed.

Lemma items_values_distinct (k : string) (items : dict) :
  distinct_keys items = true ->
  items_values k items =
    match dict_get k items with
    | Some v => if is_py_number v then [v] else []
    | None => []
    end.
Proof.
  induction items as [|[k' v] items IH]; intro H; [reflexivity|].
  simpl in H. apply andb_true_iff in H as [H1 H2]. apply negb_true_iff in H1.
  rewrite items_values_cons. simpl.
  destruct (String.eqb k k') eqn:E; simpl.
  - apply String.eqb_eq in E; subst k'.
    rewrite (items_values_absent k items H1). destruct (is_py_number v); reflexivity.
  - exact (IH H2).
Qed.

Lemma mv_add_nonempty (k : string) (v : json) (mv : value_lists) :
  lists_nonempty mv -> lists_nonempty (mv_add k v mv).
Proof.
  unfold lists_nonempty. induction mv as [|[k1 vs] mv IH]; intro H; simpl.
  - constructor; [discriminate | constructor].
  - apply Forall_cons_iff in H as [H1 H2].
    destruct (String.eqb k k1); constructor; simpl; auto.
    intro Hc. apply app_eq_nil in Hc as [_ Hc]. discriminate.
Qed.

Lemma collect_nonempty (items : dict) (mv : value_lists) :
  lists_nonempty mv -> lists_nonempty (collect_metrics items mv).
Proof.
  revert mv. induction items as [|[k v] items IH]; intros mv H; simpl; [exact H|].
  apply IH. destruct (is_py_number v); [apply mv_add_nonempty|]; exact H.
Qed.

Lemma aggregate_spec (completed : list json) (mv : value_lists) :
  Forall (fun r => exists md, run_metric_dict r = Some md /\ distinct_keys md = true)
    completed ->
  lists_nonempty mv ->
  exists mv', aggregate completed mv = Ok mv' /\ lists_nonempty mv' /\
    forall k, mv_get k mv' = mv_get k mv ++ flat_map (numeric_value k) completed.
Proof.
  revert mv. induction completed as [|r rs IH]; intros mv HF Hne.
  - exists mv. repeat split; [exact Hne|]. intro k. rewrite app_nil_r. reflexivity.
  - apply Forall_cons_iff in HF as [[md [Hmd Hd]] Hrs].
    assert (Hag : aggregate (r :: rs) mv = aggregate rs (collect_metrics md mv)).
    { destruct r as [| | | | |d]; try discriminate. simpl in Hmd |- *.
      destruct (dict_get "metrics" d) as [[| | | | |md']|]; try discriminate;
        injection Hmd as <-; reflexivity. }
    destruct (IH (collect_metrics md mv) Hrs (collect_nonempty md mv Hne))
      as [mv' [Hl [Hne' Hget]]].
    exists mv'. rewrite Hag. repeat split; [exact Hl | exact Hne' |].
    intro k. rewrite Hget, mv_get_collect, (items_values_distinct k md Hd).
    cbn [flat_map]. unfold numeric_value at 2. rewrite Hmd, app_assoc. reflexivity.
Qed.

Lemma stats_dict_get (k : string) (mv : value_lists) :
  lists_nonempty mv ->
  dict_get k (stats_dict mv) =
    match mv_get k mv with [] => None | v0 :: vs => Some (metric_stats_of v0 vs) end.
Proof.
  unfold lists_nonempty. induction mv as [|[k1 vs] mv IH]; intro H; [reflexivity|].
  apply Forall_cons_iff in H as [H1 H2]. simpl in H1.
  destruct vs as [|v0 vs]; [congruence|]. simpl.
  destruct (String.eqb k k1); [reflexivity | exact (IH H2)].
Qed.

Lemma min_loop_spec (cur : json) (vs : list json) :
  In (min_loop cur vs) (cur :: vs) /\
  Forall (fun v => num_of (min_loop cur vs) <= num_of v) (cur :: vs).
Proof.
  revert cur. induction vs as [|v vs IH]; intro cur; simpl.
  - split; [left; reflexivity | constructor; [apply Qle_refl | constructor]].
  - set (c' := if Qltb (num_of v) (num_of cur) then v else cur).
    assert (Hc : (c' = v \/ c' = cur) /\ num_of c' <= num_of v /\ num_of c' <= num_of cur).
    { unfold c'. destruct (Qltb (num_of v) (num_of cur)) eqn:E.
      - apply Qltb_true in E. repeat split; [left; reflexivity | apply Qle_refl | apply Qlt_le_weak; exact E].
      - apply Qltb_false in E. repeat split; [right; reflexivity | exact E | apply Qle_refl]. }
    destruct Hc as [Hc [Hcv Hcc]].
    destruct (IH c') as [Hin Hall]. apply Forall_cons_iff in Hall as [Hm Hrest].
    split.
    + destruct Hin as [Hin|Hin]; [rewrite <- Hin; destruct Hc as [-> | ->]; simpl; tauto|].
      right; right; exact Hin.
    + constructor; [eapply Qle_trans; eassumption|].
      constructor; [eapply Qle_trans; eassumption | exact Hrest].
Qed.

Lemma max_loop_spec (cur : json) (vs : list json) :
  In (max_loop cur vs) (cur :: vs) /\
  Forall (fun v => num_of v <= num_of (max_loop cur vs)) (cur :: vs).
Proof.
  revert cur. induction vs as [|v vs IH]; intro cur; simpl.
  - split; [left; reflexivity | constructor; [apply Qle_refl | constructor]].
  - set (c' := if Qltb (num_of cur) (num_of v) then v else cur).
    assert (Hc : (c' = v \/ c' = cur) /\ num_of v <= num_of c' /\ num_of cur <= num_of c').
    { unfold c'. destruct (Qltb (num_of cur) (num_of v)) eqn:E.
      - apply Qltb_true in E. repeat split; [left; reflexivity | apply Qle_refl | apply Qlt_le_weak; exact E].
      - apply Qltb_false in E. repeat split; [right; reflexivity | exact E | apply Qle_refl]. }
    destruct Hc as [Hc [Hcv Hcc]].
    destruct (IH c') as [Hin Hall]. apply Forall_cons_iff in Hall as [Hm Hrest].
    split.
    + destruct Hin as [Hin|Hin]; [rewrite <- Hin; destruct Hc as [-> | ->]; simpl; tauto|].
      right; right; exact Hin.
    + constructor; [eapply Qle_trans; eassumption|].
      constructor; [eapply Qle_trans; eassumption | exact Hrest].
Qed.

Lemma py_sum_spec (vs : list json) : py_sum vs == spec_sum vs.
Proof.
  unfold py_sum.
  assert (Hg : forall a, fold_left (fun acc v => acc + num_of v) vs a == a + spec_sum vs).
  { induction vs as [|v vs IH]; intro a; simpl.
    - unfold spec_sum. simpl. ring.
    - rewrite IH. unfold spec_sum. simpl. ring. }
  rewrite Hg. ring.
Qed.

Lemma last_in (l : list json) (d : json) : In (last l d) (d :: l).
Proof.
  induction l as [|x l IH] using rev_ind; [left; reflexivity|].
  rewrite last_last. right. apply in_or_app. right. left. reflexivity.
Qed.

Lemma start_time_of_dict (r : json) :
  is_dict r = true -> exists v, start_time_of r = Ok v.
Proof.
  destruct r as [| | | | |d]; try discriminate. intros _.
  eexists. reflexivity.
Qed.

Section Summary.
Context `{JsonLib}.


End Summary.



(** ** Sequences of [log_metrics] calls *)

Lemma mentions_In (k : string) (ks : list string) : mentions k ks = true <-> In k ks.
Proof.
  unfold mentions. rewrite existsb_exists. split.
  - intros [x [Hx E]]. apply String.eqb_eq in E. subst x. exact Hx.
  - intro Hk. exists k. split; [exact Hk | apply String.eqb_refl].
Qed.

Lemma dict_get_mentions (k : string) (d : dict) :
  dict_get k d = None <-> mentions k (dict_keys d) = false.
Proof.
  induction d as [|[k' v] d IH]; simpl; [tauto|].
  unfold mentions in *. simpl. destruct (String.eqb k k'); simpl; [split; discriminate | exact IH].
Qed.

Lemma distinct_keys_NoDup (d : dict) : distinct_keys d = true -> NoDup (dict_keys d).
Proof.
  induction d as [|[k v] d IH]; intro H; simpl; [constructor|].
  simpl in H. apply andb_true_iff in H as [H1 H2]. apply negb_true_iff in H1.
  constructor; [|exact (IH H2)].
  intro Hin. apply (mentions_In k) in Hin. unfold mentions, dict_keys in Hin. congruence.
Qed.

Section Metrics.
Context `{ClockLib}.

Lemma append_series_spec (s now : Z) (items m : dict) :
  distinct_keys items = true ->
  (forall k, In k (dict_keys items) -> series_or_absent (dict_get k m) = true) ->
  exists m', append_series s now items m = (Ok tt, m') /\
    forall k, dict_get k m' = metric_step k (dict_get k m) (mk_call items (Some s) now).
Proof.
  revert m. induction items as [|[k1 v1] items IH]; intros m Hd Hser.
  - exists m. split; [reflexivity|]. intro k. reflexivity.
  - simpl in Hd. apply andb_true_iff in Hd as [Hk1 Hd]. apply negb_true_iff in Hk1.
    set (m1 := dict_set k1 (JArr (series_of (dict_get k1 m) ++ [series_entry s v1 now])) m).
    assert (Hstep : append_series s now ((k1, v1) :: items) m = append_series s now items m1).
    { specialize (Hser k1 (or_introl eq_refl)). simpl.
      destruct (dict_get k1 m) as [[| | | | |]|]; try discriminate; reflexivity. }
    assert (Hm1 : forall k, k <> k1 -> dict_get k m1 = dict_get k m).
    { intros k Hk. unfold m1. rewrite dict_get_set.
      destruct (String.eqb_spec k k1); [contradiction | reflexivity]. }
    destruct (IH m1 Hd) as [m' [Happ Hget]].
    { intros k Hk. rewrite Hm1; [apply Hser; right; exact Hk|].
      intros ->. apply (mentions_In k1) in Hk. unfold mentions, dict_keys in Hk. simpl in Hk1. congruence. }
    exists m'. split; [rewrite Hstep; exact Happ|].
    intro k. rewrite Hget. unfold metric_step. cbn [mc_metrics mc_step mc_now dict_get].
    destruct (String.eqb_spec k k1) as [->|Hne].
    + assert (Hn : dict_get k1 items = None).
      { apply dict_get_mentions. exact Hk1. }
      rewrite Hn. unfold m1. rewrite dict_get_set, String.eqb_refl. reflexivity.
    + rewrite (Hm1 k Hne). reflexivity.
Qed.

Lemma log_metrics_one (lg : logger) (r : run) (c : metrics_call) :
  current_run lg = Some r ->
  distinct_keys (mc_metrics c) = true ->
  (mc_step c <> None ->
   forall k, In k (dict_keys (mc_metrics c)) -> series_or_absent (dict_get k (run_metrics r)) = true) ->
  exists m, log_metrics (mc_metrics c) (mc_step c) (mc_now c) lg =
              (Ok tt, set_current lg (with_metrics r m)) /\
    forall k, dict_get k m = metric_step k (dict_get k (run_metrics r)) c.
Proof.
  intros Hcur Hd Hser. destruct c as [items [s|] now]; unfold log_metrics; rewrite Hcur;
    cbn [mc_metrics mc_step mc_now] in *.
  - destruct (append_series_spec s now items (run_metrics r) Hd (Hser ltac:(discriminate)))
      as [m [Happ Hget]].
    exists m. rewrite Happ. split; [reflexivity | exact Hget].
  - exists (dict_update (run_metrics r) items). split; [reflexivity|].
    intro k. rewrite (dict_get_update k items (run_metrics r) (distinct_keys_NoDup _ Hd)).
    unfold metric_step. cbn [mc_metrics mc_step].
    destruct (dict_get k items); reflexivity.
Qed.

Lemma step_keys_cons (c : metrics_call) (cs : list metrics_call) :
  step_keys (c :: cs) =
    match mc_step c with Some _ => dict_keys (mc_metrics c) | None => [] end ++ step_keys cs.
Proof. reflexivity. Qed.

Lemma scalar_keys_cons (c : metrics_call) (cs : list metrics_call) :
  scalar_keys (c :: cs) =
    match mc_step c with Some _ => [] | None => dict_keys (mc_metrics c) end ++ scalar_keys cs.
Proof. reflexivity. Qed.

Lemma log_metrics_seq_trace (cs : list metrics_call) (lg : logger) (r : run) :
  current_run lg = Some r ->
  Forall (fun c => distinct_keys (mc_metrics c) = true) cs ->
  (forall k, In k (step_keys cs) -> ~ In k (scalar_keys cs)) ->
  (forall k, In k (step_keys cs) -> series_or_absent (dict_get k (run_metrics r)) = true) ->
  exists m, log_metrics_seq cs lg = (Ok tt, set_current lg (with_metrics r m)) /\
    forall k, dict_get k m = metric_after k cs (dict_get k (run_metrics r)).
Proof.
  revert lg r. induction cs as [|c cs IH]; intros lg r Hcur Hd Hmode Hinit.
  - exists (run_metrics r). split.
    + simpl. destruct lg as [eid cur rid f]. simpl in Hcur. subst cur.
      destruct r; reflexivity.
    + intro k. reflexivity.
  - apply Forall_cons_iff in Hd as [Hdc Hds].
    destruct (log_metrics_one lg r c Hcur Hdc) as [m1 [Hl1 Hg1]].
    { intros Hs k Hk. apply Hinit. rewrite step_keys_cons.
      destruct (mc_step c); [|congruence]. apply in_or_app. left. exact Hk. }
    set (lg1 := set_current lg (with_metrics r m1)).
    destruct (IH lg1 (with_metrics r m1) eq_refl Hds) as [m [Hl Hg]].
    + intros k Hk Hk'. apply (Hmode k).
      * rewrite step_keys_cons. apply in_or_app. right. exact Hk.
      * rewrite scalar_keys_cons. apply in_or_app. right. exact Hk'.
    + intros k Hk. cbn [run_metrics with_metrics]. rewrite Hg1. unfold metric_step.
      destruct (dict_get k (mc_metrics c)) as [v|] eqn:Ek.
      * destruct (mc_step c) as [s|] eqn:Es; [reflexivity|].
        exfalso. apply (Hmode k).
        -- rewrite step_keys_cons. apply in_or_app. right. exact Hk.
        -- rewrite scalar_keys_cons, Es. apply in_or_app. left.
           apply mentions_In. destruct (mentions k (dict_keys (mc_metrics c))) eqn:Em; [reflexivity|].
           apply dict_get_mentions in Em. congruence.
      * apply Hinit. rewrite step_keys_cons. apply in_or_app. right. exact Hk.
    + exists m. split.
      * cbn [log_metrics_seq]. rewrite Hl1. exact Hl.
      * intro k. rewrite Hg. simpl (metric_after k (c :: cs) _).
        cbn [run_metrics with_metrics]. rewrite Hg1. reflexivity.
Qed.

Lemma mentions_app (k : string) (l1 l2 : list string) :
  mentions k (l1 ++ l2) = mentions k l1 || mentions k l2.
Proof. unfold mentions. apply existsb_app. Qed.

Lemma metric_after_cons (k : string) (c : metrics_call) (cs : list metrics_call)
    (v0 : option json) :
  metric_after k (c :: cs) v0 = metric_after k cs (metric_step k v0 c).
Proof. reflexivity. Qed.

Lemma expected_series_cons (k : string) (c : metrics_call) (cs : list metrics_call) :
  expected_series k (c :: cs) =
    match mc_step c, dict_get k (mc_metrics c) with
    | Some s, Some v => [series_entry s v (mc_now c)]
    | _, _ => []
    end ++ expected_series k cs.
Proof. reflexivity. Qed.

Lemma expected_series_absent (k : string) (cs : list metrics_call) :
  mentions k (step_keys cs) = false -> expected_series k cs = [].
Proof.
  induction cs as [|[items step now] cs IH]; intro Hno; [reflexivity|].
  rewrite step_keys_cons, mentions_app in Hno. apply orb_false_iff in Hno as [H1 H2].
  rewrite expected_series_cons, (IH H2). cbn [mc_step mc_metrics mc_now] in *.
  destruct step; [|reflexivity].
  apply dict_get_mentions in H1. rewrite H1. reflexivity.
Qed.

Lemma metric_after_series (k : string) (cs : list metrics_call) (v0 : option json) :
  mentions k (scalar_keys cs) = false ->
  metric_after k cs v0 =
    if mentions k (step_keys cs)
    then Some (JArr (series_of v0 ++ expected_series k cs)) else v0.
Proof.
  revert v0. induction cs as [|[items step now] cs IH]; intros v0 Hno; [reflexivity|].
  rewrite scalar_keys_cons, mentions_app in Hno. apply orb_false_iff in Hno as [H1 H2].
  rewrite metric_after_cons, (IH _ H2), step_keys_cons, mentions_app, expected_series_cons.
  unfold metric_step. cbn [mc_step mc_metrics mc_now] in *.
  destruct step as [s|].
  - destruct (dict_get k items) as [v|] eqn:Ek.
    + assert (Hm : mentions k (dict_keys items) = true).
      { destruct (mentions k (dict_keys items)) eqn:E; [reflexivity|].
        apply dict_get_mentions in E. congruence. }
      rewrite Hm. cbn [orb series_of].
      destruct (mentions k (step_keys cs)) eqn:Em.
      * rewrite <- app_assoc. reflexivity.
      * rewrite (expected_series_absent k cs Em), app_nil_r. reflexivity.
    + assert (Hm : mentions k (dict_keys items) = false) by (apply dict_get_mentions; exact Ek).
      rewrite Hm. reflexivity.
  - apply dict_get_mentions in H1. rewrite H1. reflexivity.
Qed.

Lemma metric_after_scalar (k : string) (cs : list metrics_call) (v0 : option json) :
  mentions k (step_keys cs) = false ->
  metric_after k cs v0 = match last_scalar k cs with Some v => Some v | None => v0 end.
Proof.
  revert v0. induction cs as [|[items step now] cs IH]; intros v0 Hno; [reflexivity|].
  rewrite step_keys_cons, mentions_app in Hno. apply orb_false_iff in Hno as [H1 H2].
  rewrite metric_after_cons, (IH _ H2). simpl. unfold metric_step.
  cbn [mc_step mc_metrics mc_now] in *.
  destruct (last_scalar k cs); [reflexivity|].
  destruct step as [s|].
  - apply dict_get_mentions in H1. rewrite H1. reflexivity.
  - destruct (dict_get k items); reflexivity.
Qed.

End Metrics.

Section MetricsSequence.
Context `{ClockLib}.


End MetricsSequence.



(** ** Further properties of the logger *)

Lemma dict_get_app (k : string) (a b : dict) :
  dict_get k (a ++ b) = match dict_get k a with Some v => Some v | None => dict_get k b end.
Proof.
  induction a as [|[k' v'] a IH]; [reflexivity|]. simpl.
  destruct (String.eqb k k'); [reflexivity | exact IH].
Qed.

Lemma dict_set_absent (k : string) (v : json) (d : dict) :
  dict_get k d = None -> dict_set k v d = d ++ [(k, v)].
Proof.
  induction d as [|[k' v'] d IH]; intro Hn; [reflexivity|]. simpl in *.
  destruct (String.eqb k k'); [discriminate|]. rewrite (IH Hn). reflexivity.
Qed.

Lemma dict_update_fresh (new acc : dict) :
  distinct_keys new = true ->
  (forall k, In k (dict_keys new) -> dict_get k acc = None) ->
  dict_update acc new = acc ++ new.
Proof.
  revert acc. induction new as [|[k v] new IH]; intros acc Hd Hfr.
  - rewrite app_nil_r. reflexivity.
  - simpl in Hd. apply andb_true_iff in Hd as [Hk Hd]. apply negb_true_iff in Hk.
    change (dict_update acc ((k, v) :: new)) with (dict_update (dict_set k v acc) new).
    rewrite (dict_set_absent k v acc (Hfr k (or_introl eq_refl))).
    rewrite IH by
      (exact Hd ||
       (intros k' Hk'; rewrite dict_get_app, (Hfr k' (or_intror Hk')); simpl;
        destruct (String.eqb_spec k' k) as [->|]; [|reflexivity];
        apply (mentions_In k) in Hk'; unfold mentions, dict_keys in Hk'; congruence)).
    rewrite <- app_assoc. reflexivity.
Qed.

Lemma dict_update_nil (d : dict) : distinct_keys d = true -> dict_update [] d = d.
Proof. intro Hd. apply dict_update_fresh; [exact Hd | reflexivity]. Qed.

Lemma set_current_self (lg : logger) (r : run) :
  current_run lg = Some r -> set_current lg r = lg.
Proof. destruct lg as [eid cur rid f]. simpl. intros ->. reflexivity. Qed.

Lemma append_series_app `{ClockLib} (s now : Z) (pre rest m m1 : dict) :
  append_series s now pre m = (Ok tt, m1) ->
  append_series s now (pre ++ rest) m = append_series s now rest m1.
Proof.
  revert m. induction pre as [|[k v] pre IH]; intros m Happ.
  - injection Happ as <-. reflexivity.
  - simpl in Happ |- *.
    destruct (dict_get k m) as [[| | | | |]|]; try discriminate; apply IH; exact Happ.
Qed.

Lemma status_exclusive (r : json) :
  status_is "completed" r = true -> status_is "failed" r = false.
Proof.
  unfold status_is, is_str. destruct (json_get r "status") as [[| | | s | |]|]; try discriminate.
  intro Hs. apply String.eqb_eq in Hs. subst s. reflexivity.
Qed.

Lemma status_counts (runs : list json) :
  (length (filter (status_is "completed") runs) + length (filter (status_is "failed") runs)
   <= length runs)%nat.
Proof.
  induction runs as [|r runs IH]; [reflexivity|]. simpl.
  destruct (status_is "completed" r) eqn:Ec.
  - rewrite (status_exclusive r Ec). simpl. lia.
  - destruct (status_is "failed" r); simpl; lia.
Qed.

Section LoggerCalls.
Context `{JsonLib} `{ClockLib}.

(** X1.  On an active run, a sequence of [log_params] calls, each with a
    dict of distinct keys, succeeds and changes only the run's parameters:
    each key holds the value of the last call that names it, and a key that
    no call names keeps its earlier value.  The run stays active. *)
Theorem log_params_sequence (lg : logger) (r : run) (ps : list dict) :
  current_run lg = Some r ->
  forallb distinct_keys ps = true ->
  exists P,
    run_all (map log_params ps) lg = (Ok tt, set_current lg (with_parameters r P)) /\
    forall k, dict_get k P =
      match last_value k ps with Some v => Some v | None => dict_get k (run_parameters r) end.
Proof.
  revert lg r. induction ps as [|p ps IH]; intros lg r Hcur Hd.
  - exists (run_parameters r). split; [|reflexivity].
    simpl. destruct r; rewrite set_current_self by exact Hcur. reflexivity.
  - simpl in Hd. apply andb_true_iff in Hd as [Hp Hd].
    set (r1 := with_parameters r (dict_update (run_parameters r) p)).
    destruct (IH (set_current lg r1) r1 eq_refl Hd) as [P [Hrun Hget]].
    exists P. split.
    + cbn [map run_all]. unfold log_params at 1. rewrite Hcur. exact Hrun.
    + intro k. rewrite Hget. cbn [last_value].
      destruct (last_value k ps); [reflexivity|].
      unfold r1. cbn [run_parameters with_parameters].
      rewrite (dict_get_update k p _ (distinct_keys_NoDup p Hp)). reflexivity.
Qed.

(** X2.  The one-key wrappers on an active run.  [log_param(k, v)] sets
    parameter [k] to [v] and keeps the others; [log_metric(k, v)] without a
    step sets metric [k] to [v] and keeps the others; with a step it appends
    one entry [{step, value, timestamp}] to the series of [k] (a new series
    when [k] is absent) and keeps the others, and when [k] holds a value
    that is not a list it raises [AttributeError] and changes nothing. *)
Theorem single_key_wrappers (lg : logger) (r : run) (k : string) (v : json) :
  current_run lg = Some r ->
  (exists P, log_param k v lg = (Ok tt, set_current lg (with_parameters r P)) /\
     dict_get k P = Some v /\
     forall k', k' <> k -> dict_get k' P = dict_get k' (run_parameters r)) /\
  (forall now, exists M, log_metric k v None now lg = (Ok tt, set_current lg (with_metrics r M)) /\
     dict_get k M = Some v /\
     forall k', k' <> k -> dict_get k' M = dict_get k' (run_metrics r)) /\
  (forall s now, series_or_absent (dict_get k (run_metrics r)) = true ->
     exists M, log_metric k v (Some s) now lg = (Ok tt, set_current lg (with_metrics r M)) /\
     dict_get k M = Some (JArr (series_of (dict_get k (run_metrics r)) ++ [series_entry s v now])) /\
     forall k', k' <> k -> dict_get k' M = dict_get k' (run_metrics r)) /\
  (forall s now x, dict_get k (run_metrics r) = Some x -> series_or_absent (Some x) = false ->
     log_metric k v (Some s) now lg = (Err (no_append x), lg)).
Proof.
  intro Hcur. unfold log_param, log_metric, log_params, log_metrics. rewrite Hcur.
  assert (Hset : forall d k', dict_get k' (dict_set k v d) =
                              if String.eqb k' k then Some v else dict_get k' d)
    by (intros; apply dict_get_set).
  split; [|split; [|split]].
  - eexists. split; [reflexivity|]. cbn [dict_update fold_left fst snd].
    rewrite Hset, String.eqb_refl. split; [reflexivity|].
    intros k' Hk'. rewrite Hset. destruct (String.eqb_spec k' k); [contradiction | reflexivity].
  - intro now. eexists. split; [reflexivity|]. cbn [dict_update fold_left fst snd].
    rewrite Hset, String.eqb_refl. split; [reflexivity|].
    intros k' Hk'. rewrite Hset. destruct (String.eqb_spec k' k); [contradiction | reflexivity].
  - intros s now Hser. cbn [append_series].
    destruct (dict_get k (run_metrics r)) as [[| | | | es |]|] eqn:Ek; try discriminate;
      (eexists; split; [reflexivity|]);
      (rewrite dict_get_set, String.eqb_refl; split; [reflexivity|]);
      intros k' Hk'; rewrite dict_get_set;
      (destruct (String.eqb_spec k' k); [contradiction | reflexivity]).
  - intros s now x Hx Hser. cbn [append_series]. rewrite Hx.
    destruct x as [| | | | |]; try discriminate;
      rewrite (set_current_self lg (with_metrics r (run_metrics r)))
        by (rewrite Hcur; destruct r; reflexivity); reflexivity.
Qed.

(** X3.  On an active run, a sequence of [log_artifact] calls succeeds and
    appends one record [{path, type, logged_at}] per call to the run's
    artifacts, in the order of the calls, keeping the earlier ones; nothing
    else changes and the run stays active. *)
Theorem log_artifact_sequence (lg : logger) (r : run) (arts : list (string * string * Z)) :
  current_run lg = Some r ->
  run_all (map (fun a => let '(p, ty, t) := a in log_artifact p ty t) arts) lg =
    (Ok tt, set_current lg (with_artifacts r (run_artifacts r ++ map artifact_entry arts))).
Proof.
  revert lg r. induction arts as [|[[p ty] t] arts IH]; intros lg r Hcur.
  - cbn [map run_all]. rewrite app_nil_r.
    destruct r; rewrite set_current_self by exact Hcur. reflexivity.
  - cbn [map run_all]. unfold log_artifact at 1. rewrite Hcur.
    erewrite IH by reflexivity. cbn [run_artifacts with_artifacts map].
    rewrite <- app_assoc. reflexivity.
Qed.


(** X5.  After a successful [end_run] the logger has no active run and no
    run id, keeps its experiment id, and every call that needs a run
    raises: [log_params], [log_metrics] and [log_artifact] the error "No
    active run", [end_run] the error "No active run to end", each leaving
    the logger as it is. *)
Theorem end_run_closes_run (lg : logger) (r : run) (status : string)
    (error : option string) (now t0 : Z) :
  current_run lg = Some r ->
  fromisoformat (run_start_time r) = Some t0 ->
  fromisoformat (isoformat now) = Some now ->
  exists lg', end_run status error now lg = (Ok tt, lg') /\
    current_run lg' = None /\ cur_run_id lg' = None /\ experiment_id lg' = experiment_id lg /\
    (forall params, log_params params lg' = (Err no_active_run, lg')) /\
    (forall metrics step t, log_metrics metrics step t lg' = (Err no_active_run, lg')) /\
    (forall path ty t, log_artifact path ty t lg' = (Err no_active_run, lg')) /\
    (forall st er t, end_run st er t lg' = (Err no_active_run_to_end, lg')).
Proof.
  intros Hcur Ht0 Hnow. rewrite (end_run_appends lg r status error now t0 Hcur Ht0 Hnow).
  eexists. split; [reflexivity|]. repeat split.
Qed.

(** X6.  The log file only grows.  [start_run], [log_params],
    [log_metrics] and [log_artifact] never touch it, whether they succeed or
    raise; [end_run] either raises and leaves it as it is, or succeeds and
    appends to it, keeping the earlier text as a prefix.  None of them
    changes the experiment id. *)
Theorem log_file_append_only (lg : logger) :
  (forall pl ds cp tags uid now,
     log_file (snd (start_run pl ds cp tags uid now lg)) = log_file lg /\
     experiment_id (snd (start_run pl ds cp tags uid now lg)) = experiment_id lg) /\
  (forall p, log_file (snd (log_params p lg)) = log_file lg /\
     experiment_id (snd (log_params p lg)) = experiment_id lg) /\
  (forall m st now, log_file (snd (log_metrics m st now lg)) = log_file lg /\
     experiment_id (snd (log_metrics m st now lg)) = experiment_id lg) /\
  (forall p ty now, log_file (snd (log_artifact p ty now lg)) = log_file lg /\
     experiment_id (snd (log_artifact p ty now lg)) = experiment_id lg) /\
  (forall st er now,
     experiment_id (snd (end_run st er now lg)) = experiment_id lg /\
     match end_run st er now lg with
     | (Ok _, lg') => exists line, log_file lg' = Some (file_text (log_file lg) ++ line)%string
     | (Err _, lg') => log_file lg' = log_file lg
     end).
Proof.
  split; [|split; [|split; [|split]]].
  - intros. split; reflexivity.
  - intros. unfold log_params. destruct (current_run lg); split; reflexivity.
  - intros m [s|] now; unfold log_metrics; destruct (current_run lg) as [r|];
      try (split; reflexivity).
    destruct (append_series s now m (run_metrics r)). split; reflexivity.
  - intros. unfold log_artifact. destruct (current_run lg); split; reflexivity.
  - intros st er now. unfold end_run. destruct (current_run lg) as [r|]; [|split; reflexivity].
    destruct (fromisoformat (run_start_time (with_end r (isoformat now) st er)));
      [|split; reflexivity].
    destruct (fromisoformat (isoformat now)); [|split; reflexivity].
    split; [reflexivity|]. eexists. reflexivity.
Qed.

(** X7.  [with ExperimentRun(...)] around a body that ends the run itself
    (it calls [end_run] and no [start_run] after it): the body's outcome is
    lost, as [__exit__]'s own [end_run] raises "No active run to end", and
    the logger stays as the body left it, so the run is written only once,
    by the body. *)
Theorem experiment_run_body_ends_run (pipeline dataset config_path : option string)
    (tags : option dict) (uid : string) (t_start t_end : Z)
    (body : logger -> result unit * logger) (lg lg2 : logger) (o : result unit) :
  body (snd (start_run pipeline dataset config_path tags uid t_start lg)) = (o, lg2) ->
  current_run lg2 = None ->
  experiment_run pipeline dataset config_path tags uid t_start t_end body lg =
    (Err no_active_run_to_end, lg2).
Proof.
  intros Hbody Hno. unfold experiment_run.
  change (start_run pipeline dataset config_path tags uid t_start lg) with
    (Ok uid, snd (start_run pipeline dataset config_path tags uid t_start lg)).
  cbv iota. rewrite Hbody.
  destruct o; unfold end_run; rewrite Hno; reflexivity.
Qed.

End LoggerCalls.

Section Readers.
Context `{JsonLib}.




End Readers.

Section Pipeline.
Context `{JsonLib} `{ClockLib}.

(** X10.  [run_pipeline_from_config] with an experiment id, when the
    pipeline steps succeed with metrics [metrics] and output directory
    [out]: it returns the metrics, leaves the logger with no active run, and
    appends exactly one record to the experiment's log, whatever the logger
    held before.  The record has status [completed] and no error, the
    pipeline name, dataset and config path given, the model section of the
    config as parameters, the metrics, and one artifact [out] of type
    [results_directory]. *)
Theorem run_pipeline_logging_completed (pipeline_name : string) (dataset : option string)
    (config_path : string) (model metrics : dict) (out uid : string)
    (t_start t_log t_end t_fail : Z) (lg : logger) :
  distinct_keys model = true -> distinct_keys metrics = true ->
  fromisoformat (isoformat t_start) = Some t_start ->
  fromisoformat (isoformat t_end) = Some t_end ->
  exists rec,
    run_pipeline_logging pipeline_name dataset config_path model uid t_start t_log t_end t_fail
      (Ok (metrics, out)) lg =
      (Ok metrics, mk_logger (experiment_id lg) None None
                     (Some (file_text (log_file lg) ++ dumps (run_to_json rec) ++ newline)%string)) /\
    run_run_id rec = uid /\ run_experiment_id rec = experiment_id lg /\
    run_pipeline rec = Some pipeline_name /\ run_dataset rec = dataset /\
    run_config_path rec = Some config_path /\ run_tags rec = [] /\
    run_parameters rec = model /\ run_metrics rec = metrics /\
    run_artifacts rec = [artifact_entry (out, "results_directory", t_log)] /\
    run_start_time rec = isoformat t_start /\ run_end_time rec = Some (isoformat t_end) /\
    run_status rec = "completed" /\ run_error rec = None /\
    run_duration_seconds rec = Some (total_seconds t_start t_end).
Proof.
  intros Hm Hmet Hs He.
  unfold run_pipeline_logging, log_params, log_metrics, log_artifact, end_run.
  cbn -[dict_update]. rewrite Hs, He.
  eexists. split; [reflexivity|].
  cbn -[dict_update]. rewrite !dict_update_nil by assumption. repeat split.
Qed.


End Pipeline.

(** *** Instances of the further properties *)

Lemma log_params_sequence_witness :
  exists P,
    run_all (map log_params [[("lr", JNum 1)]; [("lr", JNum 2); ("epochs", JNum 10)]]) lg_active =
      (Ok tt, set_current lg_active (with_parameters run_a P)) /\
    dict_get "lr" P = Some (JNum 2) /\ dict_get "epochs" P = Some (JNum 10).
Proof.
  destruct (log_params_sequence lg_active run_a
              [[("lr", JNum 1)]; [("lr", JNum 2); ("epochs", JNum 10)]]
              ltac:(vm_compute; reflexivity) ltac:(vm_compute; reflexivity)) as [P [Hr Hg]].
  exists P. split; [exact Hr|]. split; rewrite Hg; vm_compute; reflexivity.
Defined.

Lemma single_key_wrappers_witness :
  log_metric "snr" (JNum 2) (Some 0%Z) 120 lg_scalar = (Err (no_append (JNum 1)), lg_scalar).
Proof.
  destruct (single_key_wrappers lg_scalar (with_metrics run_a [("snr", JNum 1)]) "snr" (JNum 2)
              ltac:(vm_compute; reflexivity)) as [_ [_ [_ Hw]]].
  apply Hw; vm_compute; reflexivity.
Defined.

Lemma log_artifact_sequence_witness :
  run_all (map (fun a => let '(p, ty, t) := a in log_artifact p ty t)
             [("model.pt", "checkpoint", 101%Z); ("out", "results_directory", 102%Z)]) lg_active =
    (Ok tt, set_current lg_active (with_artifacts run_a
       [artifact_entry ("model.pt", "checkpoint", 101%Z);
        artifact_entry ("out", "results_directory", 102%Z)])).
Proof.
  exact (log_artifact_sequence lg_active run_a _ ltac:(vm_compute; reflexivity)).
Defined.


Lemma end_run_closes_run_witness :
  exists lg', end_run "completed" None 105 lg_active = (Ok tt, lg') /\
    log_metrics [("snr", JNum 1)] None 106 lg' = (Err no_active_run, lg') /\
    end_run "completed" None 107 lg' = (Err no_active_run_to_end, lg').
Proof.
  destruct (end_run_closes_run lg_active run_a "completed" None 105 100
              ltac:(vm_compute; reflexivity) ltac:(vm_compute; reflexivity)
              ltac:(vm_compute; reflexivity)) as [lg' [He [_ [_ [_ [_ [Hm [_ Hend]]]]]]]].
  exists lg'. split; [exact He|]. split; [apply Hm | apply Hend].
Defined.

Lemma experiment_run_body_ends_run_witness :
  experiment_run None None None None "aaaa1111" 100 107 (end_run "completed" None 105) lg_empty =
    (Err no_active_run_to_end,
     snd (end_run "completed" None 105 (snd (start_run None None None None "aaaa1111" 100 lg_empty)))).
Proof.
  apply (experiment_run_body_ends_run None None None None "aaaa1111" 100 107
           (end_run "completed" None 105) lg_empty
           (snd (end_run "completed" None 105 (snd (start_run None None None None "aaaa1111" 100 lg_empty))))
           (fst (end_run "completed" None 105 (snd (start_run None None None None "aaaa1111" 100 lg_empty))))).
  - vm_compute. reflexivity.
  - vm_compute. reflexivity.
Defined.



Lemma run_pipeline_logging_completed_witness :
  exists rec,
    run_pipeline_logging "unet_denoising" (Some "data/in.sgy") "configs/unet.yaml"
      [("lr", JNum (1 # 1000)); ("epochs", JNum 10)] "aaaa1111" 100 110 120 130
      (Ok ([("snr", JNum 18)], "outputs/unet")) lg_empty =
      (Ok [("snr", JNum 18)],
       mk_logger "exp" None None (Some (dumps (run_to_json rec) ++ newline)%string)) /\
    run_status rec = "completed" /\ run_metrics rec = [("snr", JNum 18)].
Proof.
  destruct (run_pipeline_logging_completed "unet_denoising" (Some "data/in.sgy")
              "configs/unet.yaml" [("lr", JNum (1 # 1000)); ("epochs", JNum 10)]
              [("snr", JNum 18)] "outputs/unet" "aaaa1111" 100 110 120 130 lg_empty
              ltac:(vm_compute; reflexivity) ltac:(vm_compute; reflexivity)
              ltac:(vm_compute; reflexivity) ltac:(vm_compute; reflexivity))
    as [rec [Hr [_ [_ [_ [_ [_ [_ [_ [Hmet [_ [_ [_ [Hst _]]]]]]]]]]]]]].
  exists rec. split; [exact Hr|]. split; [exact Hst | exact Hmet].
Defined.


